(** * unison-io-speech: the streaming session engine

    A shallow embedding of [src/vad.py] (the energy-based voice activity
    detector) and of [src/websocket_handler.py] (the per-connection
    streaming session and the session manager), with the properties the
    specification states about them.

    Conventions of the embedding:
    - Python [int] is [Z]; [bytes] is [list byte]; [str] is [string].
    - A method that mutates [self] takes the object and returns the new
      object; a method that can raise returns the object as it is at the
      moment of the [raise], paired with a [result].
    - The floating point and base64 routines come from NumPy and from the
      Python runtime, not from the repository.  They are the members of
      the class [PyRuntime] over the two types of floats; every theorem of
      the development holds for every instance of the class, and
      [Reference] gives an executable instance (IEEE 754 binary32 and
      binary64) to run the code with.
    - A websocket is the list of the messages sent on it, oldest first.
      The wall clock field [timestamp] of the outgoing messages is left
      out: no property below reads it. *)

From Stdlib Require Import ZArith List String Ascii Bool Lia Sorted.
From Stdlib.Strings Require Import Byte.
From Stdlib Require Import DecimalString DecimalZ DecimalPos.
From Corelib Require Import SpecFloat.
From stdpp Require Import base option list strings gmap.

Local Open Scope Z_scope.

(** ** Exceptions and results *)

Inductive exn :=
| ValueError (msg : string)
| ZeroDivisionError (msg : string)
| OverflowError (msg : string)
| BinasciiError (msg : string).

(** [str(e)] *)
Definition str (e : exn) : string :=
  match e with
  | ValueError msg => msg
  | ZeroDivisionError msg => msg
  | OverflowError msg => msg
  | BinasciiError msg => msg
  end.

Inductive result (A : Type) :=
| Ok (a : A)
| Raise (e : exn).
Arguments Ok {A} a.
Arguments Raise {A} e.

Definition is_ok {A} (r : result A) : bool :=
  match r with Ok _ => true | Raise _ => false end.

(** Code that runs on an object of type [S]: it returns the object as the
    code left it, and either a value or the exception that was raised. *)
Definition M (S A : Type) : Type := S -> S * result A.

Definition ret {S A} (a : A) : M S A := fun s => (s, Ok a).
Definition raise {S A} (e : exn) : M S A := fun s => (s, Raise e).
Definition bind {S A B} (c : M S A) (k : A -> M S B) : M S B :=
  fun s => match c s with
           | (s', Ok a) => k a s'
           | (s', Raise e) => (s', Raise e)
           end.
Definition get {S} : M S S := fun s => (s, Ok s).
Definition modify {S} (f : S -> S) : M S unit := fun s => (f s, Ok tt).
(** A pure computation that may raise. *)
Definition lift {S A} (r : result A) : M S A := fun s => (s, r).
(** [try: c except Exception as e: h e] *)
Definition try_except {S A} (c : M S A) (h : exn -> M S A) : M S A :=
  fun s => match c s with
           | (s', Ok a) => (s', Ok a)
           | (s', Raise e) => h e s'
           end.

Declare Scope py_scope.
Delimit Scope py_scope with py.
Notation "x <- c ;; k" := (bind c (fun x => k))
  (at level 100, c at next level, right associativity) : py_scope.
Notation "c ;;; k" := (bind c (fun _ => k))
  (at level 100, right associativity) : py_scope.

(** [for x in xs: body x] *)
Fixpoint for_each {S A} (xs : list A) (body : A -> M S unit) : M S unit :=
  match xs with
  | [] => ret tt
  | x :: xs' => bind (body x) (fun _ => for_each xs' body)
  end.

(** [range(start, stop, step)], as the list of its items. *)
Definition range_len (lo hi step : Z) : Z :=
  if lo <? hi then (hi - lo - 1) / step + 1 else 0.

Definition py_range (start stop step : Z) : result (list Z) :=
  if step =? 0 then Raise (ValueError "range() arg 3 must not be zero")
  else
    let n := if 0 <? step then range_len start stop step
             else range_len stop start (- step) in
    Ok ((fun k => start + k * step) <$> seqZ 0 n).

(** [str(n)] for an [int]. *)
Definition str_of_int (n : Z) : string := NilZero.string_of_int (Z.to_int n).

(** ** The runtime: NumPy floats and base64 *)

(** [float32] stands for [np.float32] and [float] for Python's [float]. *)
Class PyRuntime (float32 float : Type) := {
  (** the literal [m]e[e], as in [0.01 = float_lit 1 (-2)] *)
  float_lit : Z -> Z -> float;
  (** [>], [-], [abs] on [float] *)
  float_gt : float -> float -> bool;
  float_sub : float -> float -> float;
  float_abs : float -> float;
  (** [a / b] on two [int] *)
  int_truediv : Z -> Z -> float;
  (** [f"{x:.1f}"] *)
  format_1f : float -> string;
  (** [.astype(np.float32)] on one integer sample *)
  f32_of_int : Z -> float32;
  (** one element of [np.frombuffer(.., dtype=np.float32)], from the 32 bits *)
  f32_of_bits : Z -> float32;
  (** [x / c] with [x] an element of a float32 array and [c] a [float] *)
  f32_truediv : float32 -> float -> float32;
  (** [x ** 2] on one element of a float32 array *)
  f32_square : float32 -> float32;
  (** [np.mean] of a float32 array, [np.sqrt] of its result, [float(..)] *)
  np_mean32 : list float32 -> float32;
  np_sqrt : float32 -> float32;
  float_of_f32 : float32 -> float;
  (** [np.mean] and [np.percentile] of a list of [float] *)
  np_mean : list float -> float;
  np_percentile : list float -> float -> result float;
  (** [base64.b64decode] of a [str] *)
  b64decode : string -> result (list byte)
}.

(** ** A reference runtime

    IEEE 754 arithmetic from the specification of floats of the standard
    library: binary32 for [np.float32], binary64 for [float].  [np.mean]
    divides the sum by the length; NumPy adds in pairs and the sum here
    is taken from left to right, which is the same number whenever the
    additions are exact, as they are in every computation below.
    [np.percentile] interpolates linearly between the two nearest ranks
    and is NaN when an energy is.  [b64decode] follows CPython's
    [binascii.a2b_base64] without [strict_mode]. *)
Module Reference.

Definition b32_of_Z (n : Z) : spec_float := binary_normalize 24 128 n 0 false.
Definition b64_of_Z (n : Z) : spec_float := binary_normalize 53 1024 n 0 false.

(** rounding of a float to the format of precision [prec] *)
Definition round_to (prec emax : Z) (x : spec_float) : spec_float :=
  match x with
  | S754_finite s m e => binary_normalize prec emax (cond_Zopp s (Zpos m)) e s
  | _ => x
  end.

Definition lit (m e : Z) : spec_float :=
  if 0 <=? e then b64_of_Z (m * 10 ^ e)
  else SFdiv 53 1024 (b64_of_Z m) (b64_of_Z (10 ^ (- e))).

Definition gt (a b : spec_float) : bool := SFltb b a.

Definition truediv (a b : Z) : spec_float :=
  SFdiv 53 1024 (b64_of_Z a) (b64_of_Z b).

(** [f"{x:.1f}"]: the exact value, rounded half to even at one decimal *)
Definition fmt_1f (x : spec_float) : string :=
  match x with
  | S754_nan => "nan"
  | S754_infinity s => if s then "-inf" else "inf"
  | S754_zero s => if s then "-0.0" else "0.0"
  | S754_finite s m e =>
      let num := Zpos m * 10 * 2 ^ Z.max e 0 in
      let den := 2 ^ Z.max (- e) 0 in
      let q := num / den in
      let r := num mod den in
      let n := if 2 * r <? den then q
               else if den <? 2 * r then q + 1
               else if Z.even q then q else q + 1 in
      ((if s then "-" else "") ++ str_of_int (n / 10) ++ "."
         ++ str_of_int (n mod 10))%string
  end.

Definition of_bits32 (bits : Z) : spec_float :=
  let s := Z.odd (bits / 2 ^ 31) in
  let ex := (bits / 2 ^ 23) mod 256 in
  let mant := bits mod 2 ^ 23 in
  if ex =? 255 then (if mant =? 0 then S754_infinity s else S754_nan)
  else if ex =? 0 then
    match mant with
    | Zpos p => S754_finite s p (-149)
    | _ => S754_zero s
    end
  else
    match mant + 2 ^ 23 with
    | Zpos p => S754_finite s p (ex - 150)
    | _ => S754_zero s
    end.

Definition mean (prec emax : Z) (l : list spec_float) : spec_float :=
  SFdiv prec emax
    (fold_left (SFadd prec emax) l (S754_zero false))
    (binary_normalize prec emax (Z.of_nat (length l)) 0 false).

Fixpoint insert_sorted (x : spec_float) (l : list spec_float) : list spec_float :=
  match l with
  | [] => [x]
  | y :: l' => if SFleb x y then x :: l else y :: insert_sorted x l'
  end.

Definition sort (l : list spec_float) : list spec_float :=
  fold_right insert_sorted [] l.

(** the integer part of a non-negative float *)
Definition floor_Z (x : spec_float) : Z :=
  match x with
  | S754_finite false m e =>
      if 0 <=? e then Zpos m * 2 ^ e else Zpos m / 2 ^ (- e)
  | _ => 0
  end.

Definition is_nan (x : spec_float) : bool :=
  match x with S754_nan => true | _ => false end.

Definition percentile (l : list spec_float) (p : spec_float)
  : result spec_float :=
  if SFleb (b64_of_Z 0) p && SFleb p (b64_of_Z 100) then
    if existsb is_nan l then Ok S754_nan else
    let sorted := sort l in
    let index :=
      SFmul 53 1024 (b64_of_Z (Z.of_nat (length l) - 1))
        (SFdiv 53 1024 p (b64_of_Z 100)) in
    let lo := floor_Z index in
    let gamma := SFsub 53 1024 index (b64_of_Z lo) in
    let a := nth (Z.to_nat lo) sorted S754_nan in
    let b := nth (Z.to_nat (Z.min (lo + 1) (Z.of_nat (length l) - 1)))
               sorted S754_nan in
    let diff := SFsub 53 1024 b a in
    Ok (if SFleb (lit 5 (-1)) gamma
        then SFsub 53 1024 b
               (SFmul 53 1024 diff (SFsub 53 1024 (b64_of_Z 1) gamma))
        else SFadd 53 1024 a (SFmul 53 1024 diff gamma))
  else Raise (ValueError "Percentiles must be in the range [0, 100]").

(** the value of a character of the base64 alphabet *)
Definition b64_value (c : ascii) : option Z :=
  let n := Z.of_nat (nat_of_ascii c) in
  if (65 <=? n) && (n <=? 90) then Some (n - 65)
  else if (97 <=? n) && (n <=? 122) then Some (n - 71)
  else if (48 <=? n) && (n <=? 57) then Some (n + 4)
  else if n =? 43 then Some 62
  else if n =? 47 then Some 63
  else None.

Definition to_byte (n : Z) : byte :=
  match Byte.of_N (Z.to_N (n mod 256)) with
  | Some b => b
  | None => x00
  end.

Fixpoint a2b_base64 (s : list ascii) (quad_pos leftchar pads : Z)
    (out : list byte) : result (list byte) :=
  match s with
  | [] =>
      if quad_pos =? 0 then Ok out
      else if quad_pos =? 1 then
        Raise (BinasciiError
          ("Invalid base64-encoded string: number of data characters ("
             ++ str_of_int (Z.of_nat (length out) / 3 * 4 + 1)
             ++ ") cannot be 1 more than a multiple of 4"))
      else Raise (BinasciiError "Incorrect padding")
  | c :: s' =>
      if Ascii.eqb c "="%char then
        if (2 <=? quad_pos) && (4 <=? quad_pos + (pads + 1)) then Ok out
        else a2b_base64 s' quad_pos leftchar
               (if 2 <=? quad_pos then pads + 1 else pads) out
      else
        match b64_value c with
        | None => a2b_base64 s' quad_pos leftchar pads out
        | Some v =>
            if quad_pos =? 0 then a2b_base64 s' 1 v 0 out
            else if quad_pos =? 1 then
              a2b_base64 s' 2 (Z.land v 15) 0
                (out ++ [to_byte (Z.lor (Z.shiftl leftchar 2) (Z.shiftr v 4))])
            else if quad_pos =? 2 then
              a2b_base64 s' 3 (Z.land v 3) 0
                (out ++ [to_byte (Z.lor (Z.shiftl leftchar 4) (Z.shiftr v 2))])
            else
              a2b_base64 s' 0 0 0
                (out ++ [to_byte (Z.lor (Z.shiftl leftchar 6) v)])
        end
  end.

Definition decode (s : string) : result (list byte) :=
  let cs := list_ascii_of_string s in
  if forallb (fun c => Z.of_nat (nat_of_ascii c) <? 128) cs
  then a2b_base64 cs 0 0 0 []
  else Raise (ValueError "string argument should contain only ASCII characters").

#[export] Instance runtime : PyRuntime spec_float spec_float := {|
  float_lit := lit;
  float_gt := gt;
  float_sub := SFsub 53 1024;
  float_abs := SFabs;
  int_truediv := truediv;
  format_1f := fmt_1f;
  f32_of_int := b32_of_Z;
  f32_of_bits := of_bits32;
  f32_truediv := fun x c => SFdiv 24 128 x (round_to 24 128 c);
  f32_square := fun x => SFmul 24 128 x x;
  np_mean32 := mean 24 128;
  np_sqrt := SFsqrt 24 128;
  float_of_f32 := round_to 53 1024;
  np_mean := mean 53 1024;
  np_percentile := percentile;
  b64decode := decode
|}.

End Reference.

(** * The engine *)

Section Engine.
Context {float32 float : Type} {RT : PyRuntime float32 float}.
Local Open Scope py_scope.

(** ** vad.py *)

Record VADConfig := mkVADConfig {
  energy_threshold : float;
  speech_pad_ms : Z;
  silence_duration_ms : Z;
  sample_rate : Z;
  frame_duration_ms : Z
}.

(** [VADConfig()] *)
Definition VADConfig_default : VADConfig :=
  {| energy_threshold := float_lit 1 (-2);
     speech_pad_ms := 300;
     silence_duration_ms := 700;
     sample_rate := 16000;
     frame_duration_ms := 30 |}.

(** [n / d] rounded to the nearest integer, halves to the even one, for
    [0 <= n] and [0 < d] *)
Definition round_half_even (n d : Z) : Z :=
  let q := n / d in
  let r := n mod d in
  if 2 * r <? d then q
  else if d <? 2 * r then q + 1
  else if Z.even q then q else q + 1.

(** [int(a / b)] on two [int].  [a / b] is the [float] nearest to the
    quotient: [ZeroDivisionError] when [b] is 0, and for a quotient
    between [2^e] and [2^(e+1)] the multiple [m * 2^(e-52)] of the unit
    in the last place nearest to it, [OverflowError] when that is
    [2^1024] or more.  [int] then drops the fraction.  Below 1/2 the
    result is 0 whatever the exponent. *)
Definition int_of_truediv (a b : Z) : result Z :=
  if b =? 0 then Raise (ZeroDivisionError "division by zero")
  else if a =? 0 then Ok 0
  else
    let n := Z.abs a in
    let d := Z.abs b in
    let e0 := Z.log2 n - Z.log2 d in
    let e :=
      if d * 2 ^ Z.max e0 0 <=? n * 2 ^ Z.max (- e0) 0 then e0 else e0 - 1 in
    if e <? -1 then Ok 0
    else
      let q := e - 52 in
      let m := round_half_even (n * 2 ^ Z.max (- q) 0) (d * 2 ^ Z.max q 0) in
      if 2 ^ 1024 <=? m * 2 ^ Z.max q 0
      then Raise (OverflowError
                    "integer division result too large for a float")
      else
        let magnitude := m * 2 ^ Z.max q 0 / 2 ^ Z.max (- q) 0 in
        Ok (if Bool.eqb (a <? 0) (b <? 0) then magnitude else - magnitude).

(** The three properties of [VADConfig]. *)
Definition frame_size (c : VADConfig) : result Z :=
  int_of_truediv (sample_rate c * frame_duration_ms c) 1000.

Definition speech_pad_frames (c : VADConfig) : result Z :=
  int_of_truediv (speech_pad_ms c) (frame_duration_ms c).

Definition config_silence_frames (c : VADConfig) : result Z :=
  int_of_truediv (silence_duration_ms c) (frame_duration_ms c).

Inductive vad_state := Silence | Speech.
Inductive vad_event := speech_start | speech_end.

Record VoiceActivityDetector := mkVAD {
  config : VADConfig;
  state : vad_state;
  speech_frames : Z;
  silence_frames : Z;
  energy_history : list float;
  max_history_size : Z
}.

(** [VoiceActivityDetector(config)] *)
Definition VoiceActivityDetector_init (c : VADConfig) : VoiceActivityDetector :=
  {| config := c; state := Silence; speech_frames := 0; silence_frames := 0;
     energy_history := []; max_history_size := 100 |}.

Definition set_energy_threshold (t : float) (c : VADConfig) : VADConfig :=
  {| energy_threshold := t; speech_pad_ms := speech_pad_ms c;
     silence_duration_ms := silence_duration_ms c;
     sample_rate := sample_rate c; frame_duration_ms := frame_duration_ms c |}.

Definition set_config (c : VADConfig) (v : VoiceActivityDetector) :=
  {| config := c; state := state v; speech_frames := speech_frames v;
     silence_frames := silence_frames v; energy_history := energy_history v;
     max_history_size := max_history_size v |}.
Definition set_state (x : vad_state) (v : VoiceActivityDetector) :=
  {| config := config v; state := x; speech_frames := speech_frames v;
     silence_frames := silence_frames v; energy_history := energy_history v;
     max_history_size := max_history_size v |}.
Definition set_speech_frames (n : Z) (v : VoiceActivityDetector) :=
  {| config := config v; state := state v; speech_frames := n;
     silence_frames := silence_frames v; energy_history := energy_history v;
     max_history_size := max_history_size v |}.
Definition set_silence_frames (n : Z) (v : VoiceActivityDetector) :=
  {| config := config v; state := state v; speech_frames := speech_frames v;
     silence_frames := n; energy_history := energy_history v;
     max_history_size := max_history_size v |}.
Definition set_energy_history (h : list float) (v : VoiceActivityDetector) :=
  {| config := config v; state := state v; speech_frames := speech_frames v;
     silence_frames := silence_frames v; energy_history := h;
     max_history_size := max_history_size v |}.

(** A one-dimensional [np.ndarray] of one of the three dtypes the detector
    reads. *)
Inductive ndarray :=
| Int16Array (l : list Z)
| Int8Array (l : list Z)
| Float32Array (l : list float32).

Definition len (a : ndarray) : Z :=
  match a with
  | Int16Array l => Z.of_nat (length l)
  | Int8Array l => Z.of_nat (length l)
  | Float32Array l => Z.of_nat (length l)
  end.

(** [l[i:j]] for [0 <= i], [0 <= j] *)
Definition slice {A} (l : list A) (i j : Z) : list A :=
  take (Z.to_nat j - Z.to_nat i) (drop (Z.to_nat i) l).

Definition ndarray_slice (a : ndarray) (i j : Z) : ndarray :=
  match a with
  | Int16Array l => Int16Array (slice l i j)
  | Int8Array l => Int8Array (slice l i j)
  | Float32Array l => Float32Array (slice l i j)
  end.

(** [np.pad(a, (0, n), mode='constant')] *)
Definition np_pad (a : ndarray) (n : Z) : ndarray :=
  match a with
  | Int16Array l => Int16Array (l ++ replicate (Z.to_nat n) 0)
  | Int8Array l => Int8Array (l ++ replicate (Z.to_nat n) 0)
  | Float32Array l => Float32Array (l ++ replicate (Z.to_nat n) (f32_of_int 0))
  end.

Definition calculate_energy (audio_data : ndarray) : float :=
  if len audio_data =? 0 then float_lit 0 0
  else
    let audio_float :=
      match audio_data with
      | Int16Array l =>
          (fun x => f32_truediv (f32_of_int x) (float_lit 32768 0)) <$> l
      | Int8Array l => f32_of_int <$> l
      | Float32Array l => l
      end in
    let energy := np_sqrt (np_mean32 (f32_square <$> audio_float)) in
    float_of_f32 energy.

(** [is_speech] of [process_frame] *)
Definition is_speech (c : VADConfig) (audio_data : ndarray) : bool :=
  float_gt (calculate_energy audio_data) (energy_threshold c).

(** [energy_history.append(energy)], then [pop(0)] above the capacity *)
Definition push_history (energy : float) (v : VoiceActivityDetector) :=
  let h := energy_history v ++ [energy] in
  set_energy_history
    (if max_history_size v <? Z.of_nat (length h) then drop 1 h else h) v.

Definition process_frame (audio_data : ndarray)
  : M VoiceActivityDetector (option vad_event) :=
  let energy := calculate_energy audio_data in
  modify (push_history energy) ;;;
  self <- get ;;
  let is_speech := float_gt energy (energy_threshold (config self)) in
  match state self with
  | Silence =>
      if is_speech then
        modify (set_speech_frames (speech_frames self + 1)) ;;;
        n <- lift (speech_pad_frames (config self)) ;;
        if n <=? speech_frames self + 1 then
          modify (set_state Speech) ;;;
          modify (set_silence_frames 0) ;;;
          ret (Some speech_start)
        else ret None
      else
        modify (set_speech_frames 0) ;;;
        ret None
  | Speech =>
      if negb is_speech then
        modify (set_silence_frames (silence_frames self + 1)) ;;;
        n <- lift (config_silence_frames (config self)) ;;
        if n <=? silence_frames self + 1 then
          modify (set_state Silence) ;;;
          modify (set_speech_frames 0) ;;;
          ret (Some speech_end)
        else ret None
      else
        modify (set_silence_frames 0) ;;;
        ret None
  end.

(** [np.frombuffer(buf, dtype)]: the items in the machine's byte order
    (little endian), [ValueError] when the length is not a multiple of
    the item size. *)
Definition byte_val (b : byte) : Z := Z.of_N (Byte.to_N b).

(** the two's complement reading of [n] on [w] bits *)
Definition signed (w : Z) (n : Z) : Z :=
  if n <? 2 ^ (w - 1) then n else n - 2 ^ w.

Fixpoint le_words (size : nat) (bs : list byte) (fuel : nat) : list Z :=
  match fuel with
  | O => []
  | S fuel' =>
      match bs with
      | [] => []
      | _ =>
          let item := take size bs in
          foldr (fun b acc => byte_val b + 256 * acc) 0 item
            :: le_words size (drop size bs) fuel'
      end
  end.

Definition frombuffer_items (size : nat) (buf : list byte) : result (list Z) :=
  if Z.of_nat (length buf) mod Z.of_nat size =? 0
  then Ok (le_words size buf (length buf))
  else Raise (ValueError "buffer size must be a multiple of element size").

Definition map_result {A B} (f : A -> B) (r : result A) : result B :=
  match r with Ok a => Ok (f a) | Raise e => Raise e end.

Definition frombuffer_int16 (buf : list byte) : result ndarray :=
  map_result (fun l => Int16Array (signed 16 <$> l)) (frombuffer_items 2 buf).
Definition frombuffer_int8 (buf : list byte) : result ndarray :=
  map_result (fun l => Int8Array (signed 8 <$> l)) (frombuffer_items 1 buf).
Definition frombuffer_float32 (buf : list byte) : result ndarray :=
  map_result (fun l => Float32Array (f32_of_bits <$> l)) (frombuffer_items 4 buf).

(** the body of the [for i in range(..)] loop of [process_chunk], with the
    list [events] built so far *)
Fixpoint process_chunk_loop (audio_data : ndarray) (frame_size : Z)
    (indices : list Z) (events : list vad_event)
  : M VoiceActivityDetector (list vad_event) :=
  match indices with
  | [] => ret events
  | i :: indices' =>
      let frame := ndarray_slice audio_data i (i + frame_size) in
      let frame :=
        if len frame <? frame_size
        then np_pad frame (frame_size - len frame)
        else frame in
      event <- process_frame frame ;;
      process_chunk_loop audio_data frame_size indices'
        (match event with
         | Some e => events ++ [e]
         | None => events
         end)
  end.

(** the first block of [process_chunk]: the bytes as an array of the
    dtype of [format] *)
Definition frombuffer (audio_chunk : list byte) (format : string)
  : result ndarray :=
  if String.eqb format "pcm16" then frombuffer_int16 audio_chunk
  else if String.eqb format "pcm8" then frombuffer_int8 audio_chunk
  else if String.eqb format "float32" then frombuffer_float32 audio_chunk
  else Raise (ValueError ("Unsupported audio format: " ++ format)).

Definition process_chunk (audio_chunk : list byte) (format : string)
  : M VoiceActivityDetector (list vad_event) :=
  audio_data <- lift (frombuffer audio_chunk format) ;;
  self <- get ;;
  frame_size <- lift (frame_size (config self)) ;;
  indices <- lift (py_range 0 (len audio_data) frame_size) ;;
  process_chunk_loop audio_data frame_size indices [].

Definition reset (v : VoiceActivityDetector) : VoiceActivityDetector :=
  set_energy_history []
    (set_silence_frames 0 (set_speech_frames 0 (set_state Silence v))).

Definition get_state (v : VoiceActivityDetector) : vad_state := state v.

(** [VoiceActivityDetector.is_speaking] *)
Definition vad_is_speaking (v : VoiceActivityDetector) : bool :=
  match state v with Speech => true | Silence => false end.

Definition get_average_energy (v : VoiceActivityDetector) : float :=
  match energy_history v with
  | [] => float_lit 0 0
  | h => np_mean h
  end.

Definition adapt_threshold (percentile : float) : M VoiceActivityDetector unit :=
  self <- get ;;
  if Z.of_nat (length (energy_history self)) <? 10 then ret tt
  else
    new_threshold <- lift (np_percentile (energy_history self) percentile) ;;
    if float_gt
         (float_abs (float_sub new_threshold (energy_threshold (config self))))
         (float_lit 5 (-3))
    then modify (fun v => set_config (set_energy_threshold new_threshold (config v)) v)
    else ret tt.

(** ** message_schema.py *)

Inductive control_action := start_listening | stop_listening | cancel_tts.

Record AudioInputMessage := mkAudioInput {
  data : string;
  timestamp : Z;
  sequence : Z
}.

Record ControlMessage := mkControl {
  action : control_action;
  control_timestamp : option Z
}.

Inductive ClientMessage :=
| AudioInput (m : AudioInputMessage)
| Control (m : ControlMessage).

Inductive status := connected | listening | processing | speaking.

Inductive ServerMessage :=
| TranscriptMessage (text : string) (is_final : bool) (confidence : float)
| VADEventMessage (event : vad_event) (energy : option float)
| BargeInMessage (cancelled_sequence : Z)
| ErrorMessage (code : string) (message : string)
| StatusMessage (s : status).

(** ** websocket_handler.py: StreamingSession *)

Record StreamingSession := mkSession {
  websocket : list ServerMessage;
  session_id : string;
  vad : VoiceActivityDetector;
  is_listening : bool;
  is_speaking : bool;
  audio_buffer : list byte;
  sequence_counter : Z;
  tts_sequence : option Z
}.

(** [StreamingSession(websocket, session_id)] *)
Definition StreamingSession_init (ws : list ServerMessage) (id : string)
  : StreamingSession :=
  {| websocket := ws; session_id := id;
     vad := VoiceActivityDetector_init VADConfig_default;
     is_listening := false; is_speaking := false; audio_buffer := [];
     sequence_counter := 0; tts_sequence := None |}.

Definition set_websocket (x : list ServerMessage) (s : StreamingSession) :=
  {| websocket := x; session_id := session_id s; vad := vad s;
     is_listening := is_listening s; is_speaking := is_speaking s;
     audio_buffer := audio_buffer s; sequence_counter := sequence_counter s;
     tts_sequence := tts_sequence s |}.
Definition set_vad (x : VoiceActivityDetector) (s : StreamingSession) :=
  {| websocket := websocket s; session_id := session_id s; vad := x;
     is_listening := is_listening s; is_speaking := is_speaking s;
     audio_buffer := audio_buffer s; sequence_counter := sequence_counter s;
     tts_sequence := tts_sequence s |}.
Definition set_is_listening (x : bool) (s : StreamingSession) :=
  {| websocket := websocket s; session_id := session_id s; vad := vad s;
     is_listening := x; is_speaking := is_speaking s;
     audio_buffer := audio_buffer s; sequence_counter := sequence_counter s;
     tts_sequence := tts_sequence s |}.
Definition set_is_speaking (x : bool) (s : StreamingSession) :=
  {| websocket := websocket s; session_id := session_id s; vad := vad s;
     is_listening := is_listening s; is_speaking := x;
     audio_buffer := audio_buffer s; sequence_counter := sequence_counter s;
     tts_sequence := tts_sequence s |}.
Definition set_audio_buffer (x : list byte) (s : StreamingSession) :=
  {| websocket := websocket s; session_id := session_id s; vad := vad s;
     is_listening := is_listening s; is_speaking := is_speaking s;
     audio_buffer := x; sequence_counter := sequence_counter s;
     tts_sequence := tts_sequence s |}.
Definition set_tts_sequence (x : option Z) (s : StreamingSession) :=
  {| websocket := websocket s; session_id := session_id s; vad := vad s;
     is_listening := is_listening s; is_speaking := is_speaking s;
     audio_buffer := audio_buffer s; sequence_counter := sequence_counter s;
     tts_sequence := x |}.

(** a method of [self.vad], run from a method of the session *)
Definition on_vad {A} (c : M VoiceActivityDetector A) : M StreamingSession A :=
  fun s => let (v, r) := c (vad s) in (set_vad v s, r).

Definition send_message (message : ServerMessage) : M StreamingSession unit :=
  modify (fun s => set_websocket (websocket s ++ [message]) s).

Definition generate_partial_transcript : M StreamingSession unit :=
  self <- get ;;
  let transcript_text :=
    ("Partial transcript... (buffer size: "
       ++ str_of_int (Z.of_nat (length (audio_buffer self))) ++ " bytes)")%string in
  send_message (TranscriptMessage transcript_text false (float_lit 75 (-2))).

Definition generate_final_transcript : M StreamingSession unit :=
  self <- get ;;
  if Z.of_nat (length (audio_buffer self)) =? 0 then ret tt
  else
    let duration_sec :=
      int_truediv (Z.of_nat (length (audio_buffer self))) (16000 * 2) in
    let transcript_text :=
      ("This is a placeholder final transcript for "
         ++ format_1f duration_sec ++ "s of audio.")%string in
    send_message (TranscriptMessage transcript_text true (float_lit 95 (-2))) ;;;
    modify (set_audio_buffer []).

Definition handle_barge_in : M StreamingSession unit :=
  self <- get ;;
  match tts_sequence self with
  | None => ret tt
  | Some seq =>
      send_message (BargeInMessage seq) ;;;
      modify (set_is_speaking false) ;;;
      modify (set_tts_sequence None) ;;;
      modify (set_is_listening true) ;;;
      send_message (StatusMessage listening)
  end.

(** the test [self.is_speaking and self.tts_sequence is not None] *)
Definition tts_in_flight (s : StreamingSession) : bool :=
  is_speaking s && bool_decide (tts_sequence s <> None).

(** the body of [for event in vad_events] in [handle_audio_input] *)
Definition handle_vad_event (event : vad_event) : M StreamingSession unit :=
  self <- get ;;
  send_message (VADEventMessage event (Some (get_average_energy (vad self)))) ;;;
  match event with
  | speech_start =>
      modify (set_is_listening true) ;;;
      self <- get ;;
      (if tts_in_flight self then handle_barge_in else ret tt) ;;;
      send_message (StatusMessage listening)
  | speech_end =>
      modify (set_is_listening false) ;;;
      generate_final_transcript ;;;
      send_message (StatusMessage processing)
  end.

(** The [try] block of [handle_audio_input], in its two parts: decoding,
    buffering and the loop over the VAD events; then the partial
    transcript. *)
Definition handle_audio_input_events (message : AudioInputMessage)
  : M StreamingSession unit :=
  audio_bytes <- lift (b64decode (data message)) ;;
  modify (fun s => set_audio_buffer (audio_buffer s ++ audio_bytes) s) ;;;
  vad_events <- on_vad (process_chunk audio_bytes "pcm16") ;;
  for_each vad_events handle_vad_event.

Definition handle_audio_input_partial : M StreamingSession unit :=
  self <- get ;;
  if vad_is_speaking (vad self)
     && (16000 <? Z.of_nat (length (audio_buffer self)))
  then generate_partial_transcript
  else ret tt.

Definition handle_audio_input_try (message : AudioInputMessage)
  : M StreamingSession unit :=
  handle_audio_input_events message ;;;
  handle_audio_input_partial.

Definition handle_audio_input (message : AudioInputMessage)
  : M StreamingSession unit :=
  try_except (handle_audio_input_try message)
    (fun e =>
       send_message
         (ErrorMessage "audio_processing_error"
            ("Failed to process audio: " ++ str e)%string)).

Definition handle_control (message : ControlMessage) : M StreamingSession unit :=
  match action message with
  | start_listening =>
      modify (set_is_listening true) ;;;
      modify (fun s => set_vad (reset (vad s)) s) ;;;
      send_message (StatusMessage listening)
  | stop_listening =>
      modify (set_is_listening false) ;;;
      self <- get ;;
      (if vad_is_speaking (vad self) then generate_final_transcript else ret tt) ;;;
      modify (fun s => set_vad (reset (vad s)) s) ;;;
      send_message (StatusMessage connected)
  | cancel_tts =>
      self <- get ;;
      if tts_in_flight self then handle_barge_in else ret tt
  end.

Definition start_tts_playback (sequence : Z) : M StreamingSession unit :=
  modify (set_is_speaking true) ;;;
  modify (set_tts_sequence (Some sequence)) ;;;
  send_message (StatusMessage speaking).

Definition end_tts_playback : M StreamingSession unit :=
  modify (set_is_speaking false) ;;;
  modify (set_tts_sequence None) ;;;
  send_message (StatusMessage listening).

(** ** websocket_handler.py: WebSocketManager *)

Record WebSocketManager := mkManager {
  sessions : gmap string StreamingSession;
  session_counter : Z
}.

(** [WebSocketManager()] *)
Definition WebSocketManager_init : WebSocketManager :=
  {| sessions := ∅; session_counter := 0 |}.

(** [create_session(websocket)]: the manager after the call, and the
    session it returns. *)
Definition create_session (ws : list ServerMessage) (m : WebSocketManager)
  : WebSocketManager * StreamingSession :=
  let counter := session_counter m + 1 in
  let session_id := ("session-" ++ str_of_int counter)%string in
  let session := StreamingSession_init ws session_id in
  ({| sessions := <[session_id := session]> (sessions m);
      session_counter := counter |}, session).

Definition remove_session (session_id : string) (m : WebSocketManager)
  : WebSocketManager :=
  match sessions m !! session_id with
  | Some _ => {| sessions := delete session_id (sessions m);
                 session_counter := session_counter m |}
  | None => m
  end.

Definition get_session (session_id : string) (m : WebSocketManager)
  : option StreamingSession := sessions m !! session_id.

Definition get_session_count (m : WebSocketManager) : Z :=
  Z.of_nat (size (sessions m)).

(** ** Vocabulary of the properties *)

(** sequential calls of [process_frame], one per frame, with the events
    they return in order *)
Fixpoint process_frames (frames : list ndarray)
  : M VoiceActivityDetector (list vad_event) :=
  match frames with
  | [] => ret []
  | frame :: frames' =>
      event <- process_frame frame ;;
      events <- process_frames frames' ;;
      ret (match event with Some e => e :: events | None => events end)
  end.


(** the frame that [process_chunk] cuts at index [i] *)
Definition frame_at (a : ndarray) (size i : Z) : ndarray :=
  let frame := ndarray_slice a i (i + size) in
  if len frame <? size then np_pad frame (size - len frame) else frame.

Definition is_partial_transcript (m : ServerMessage) : bool :=
  match m with
  | TranscriptMessage _ false _ => true
  | _ => false
  end.

Definition is_speech_start_message (m : ServerMessage) : bool :=
  match m with
  | VADEventMessage speech_start _ => true
  | _ => false
  end.

(** the operations on a session *)
Inductive session_op :=
| OpStartTts (sequence : Z)
| OpEndTts
| OpBargeIn
| OpControl (m : ControlMessage)
| OpAudioInput (m : AudioInputMessage).

Definition session_step (op : session_op) : M StreamingSession unit :=
  match op with
  | OpStartTts sequence => start_tts_playback sequence
  | OpEndTts => end_tts_playback
  | OpBargeIn => handle_barge_in
  | OpControl m => handle_control m
  | OpAudioInput m => handle_audio_input m
  end.

(** [is_speaking] exactly when a synthesis turn is in flight *)
Definition speaking_iff_tts (s : StreamingSession) : Prop :=
  is_speaking s = true <-> tts_sequence s <> None.

(** the calls on a manager, and the counters and ids that a sequence of
    calls issues, oldest first *)
Inductive manager_call :=
| CallCreate (ws : list ServerMessage)
| CallRemove (session_id : string).

(** the id of the session that gets the counter [n] *)
Definition id_of_counter (n : Z) : string :=
  ("session-" ++ str_of_int n)%string.

Fixpoint issued (calls : list manager_call) (m : WebSocketManager)
  : list (Z * string) :=
  match calls with
  | [] => []
  | CallCreate ws :: calls' =>
      let (m', session) := create_session ws m in
      (session_counter m', session_id session) :: issued calls' m'
  | CallRemove id :: calls' => issued calls' (remove_session id m)
  end.

(** ** message_schema.py: validation helpers *)


Definition validate_audio_format (sample_rate channels : Z) (format : string)
  : bool :=
  let valid_sample_rates := [8000; 16000; 22050; 44100; 48000] in
  let valid_channels := [1; 2] in
  let valid_formats := ["pcm16"; "pcm8"; "float32"] in
  bool_decide (sample_rate ∈ valid_sample_rates)
  && bool_decide (channels ∈ valid_channels)
  && bool_decide (format ∈ valid_formats).

(** ** More vocabulary *)

#[global] Instance vad_event_eq_dec : EqDecision vad_event.
Proof. solve_decision. Defined.

(** the state a detector is in after it has returned [events], starting
    from [st], when the events are possible in that order: a
    [speech_start] in the Silence state, a [speech_end] in the Speech
    state *)
Fixpoint alternates (st : vad_state) (events : list vad_event)
  : option vad_state :=
  match events with
  | [] => Some st
  | speech_start :: events' =>
      match st with
      | Silence => alternates Speech events'
      | Speech => None
      end
  | speech_end :: events' =>
      match st with
      | Speech => alternates Silence events'
      | Silence => None
      end
  end.

(** the two counters stay below what the configuration asks for: they
    are not negative, [speech_frames] is below [N] in the Silence state
    and [silence_frames] is below [M] in the Speech state *)
Definition counters_ok (N M : Z) (v : VoiceActivityDetector) : Prop :=
  0 <= speech_frames v
  /\ 0 <= silence_frames v
  /\ match state v with
     | Silence => speech_frames v < N
     | Speech => silence_frames v < M
     end.


(** the size in bytes of one item of the dtype of [format] *)
Definition itemsize (format : string) : option Z :=
  if String.eqb format "pcm16" then Some 2
  else if String.eqb format "pcm8" then Some 1
  else if String.eqb format "float32" then Some 4
  else None.

Definition is_error_message (m : ServerMessage) : bool :=
  match m with
  | ErrorMessage _ _ => true
  | _ => false
  end.

(** the manager after a sequence of calls *)
Fixpoint run_calls (calls : list manager_call) (m : WebSocketManager)
  : WebSocketManager :=
  match calls with
  | [] => m
  | CallCreate ws :: calls' => run_calls calls' (fst (create_session ws m))
  | CallRemove id :: calls' => run_calls calls' (remove_session id m)
  end.

(** the counter is not negative, every key of the map is the id of a
    counter issued so far, and the session under a key carries that key
    as its id *)
Definition manager_ok (m : WebSocketManager) : Prop :=
  0 <= session_counter m
  /\ forall id session,
       sessions m !! id = Some session ->
       session_id session = id
       /\ exists n, 1 <= n <= session_counter m /\ id = id_of_counter n.

(** * Properties *)

Ltac unfold_m :=
  cbv beta iota delta
    [bind ret raise get modify lift try_except send_message on_vad].

(** ** Barge-in *)

Lemma handle_barge_in_set (s : StreamingSession) (S : Z) :
  tts_sequence s = Some S ->
  handle_barge_in s =
    (set_websocket (websocket s ++ [BargeInMessage S; StatusMessage listening])
       (set_is_listening true (set_tts_sequence None (set_is_speaking false s))),
     Ok tt).
Proof.
  intros H. unfold handle_barge_in. unfold_m. rewrite H. unfold_m.
  destruct s; simpl. by rewrite <- app_assoc.
Qed.

Lemma handle_barge_in_unset (s : StreamingSession) :
  tts_sequence s = None -> handle_barge_in s = (s, Ok tt).
Proof.
  intros H. unfold handle_barge_in. unfold_m. by rewrite H.
Qed.

Lemma tts_in_flight_unset (s : StreamingSession) :
  tts_sequence s = None -> tts_in_flight s = false.
Proof.
  intros H. unfold tts_in_flight. rewrite H.
  rewrite bool_decide_eq_false_2; [apply andb_false_r | tauto].
Qed.

(** C2: with no synthesis turn in flight ([tts_sequence] unset),
    [handle_barge_in] sends nothing and returns the session as it was;
    the same holds on its two trigger paths: [cancel_tts] leaves the
    session as it was, and a [speech_start] event sends its VAD message
    and [Status(listening)] only, with no barge-in in between. *)
Theorem barge_in_unset_is_noop (s : StreamingSession) :
  tts_sequence s = None ->
  handle_barge_in s = (s, Ok tt)
  /\ (forall ts, handle_control (mkControl cancel_tts ts) s = (s, Ok tt))
  /\ handle_vad_event speech_start s =
       (set_websocket
          (websocket s ++
             [VADEventMessage speech_start (Some (get_average_energy (vad s)));
              StatusMessage listening])
          (set_is_listening true s), Ok tt).
Proof.
  intros H. split; [by apply handle_barge_in_unset|]. split.
  - intros ts. unfold handle_control. simpl. unfold_m.
    by rewrite tts_in_flight_unset.
  - unfold handle_vad_event. unfold_m.
    rewrite tts_in_flight_unset by (by destruct s).
    destruct s; simpl. by rewrite <- app_assoc.
Qed.

(** *** What one VAD event does to a session *)

(** [s'] is [s] with more messages sent, the flags of the synthesis turn
    either both kept or both cleared, and the detector untouched. *)
Record event_effect (s s' : StreamingSession) (msgs : list ServerMessage)
  : Prop := {
  eff_sent : websocket s' = websocket s ++ msgs;
  eff_vad : vad s' = vad s;
  eff_flags :
    (is_speaking s' = is_speaking s /\ tts_sequence s' = tts_sequence s)
    \/ (is_speaking s' = false /\ tts_sequence s' = None);
  eff_no_partial : Forall (fun m => is_partial_transcript m = false) msgs
}.

Lemma event_effect_refl (s : StreamingSession) : event_effect s s [].
Proof. split; auto. by rewrite app_nil_r. Qed.

Lemma event_effect_trans (s1 s2 s3 : StreamingSession) (m1 m2 : list ServerMessage) :
  event_effect s1 s2 m1 -> event_effect s2 s3 m2 ->
  event_effect s1 s3 (m1 ++ m2).
Proof.
  intros [Hs1 Hv1 Hf1 Hp1] [Hs2 Hv2 Hf2 Hp2]. split.
  - by rewrite Hs2, Hs1, app_assoc.
  - congruence.
  - destruct Hf2 as [[Ha Hb]|[Ha Hb]]; [|by right].
    destruct Hf1 as [[Hc Hd]|[Hc Hd]]; [left|right]; split; congruence.
  - by apply Forall_app.
Qed.

Lemma generate_final_transcript_effect (s : StreamingSession) :
  exists s' msgs,
    generate_final_transcript s = (s', Ok tt)
    /\ event_effect s s' msgs
    /\ is_listening s' = is_listening s
    /\ Forall (fun m => is_speech_start_message m = false) msgs.
Proof.
  unfold generate_final_transcript. unfold_m.
  destruct (Z.of_nat (length (audio_buffer s)) =? 0).
  - exists s, []. split; [done|]. split; [apply event_effect_refl|]. by split.
  - eexists _, [_]. split; [reflexivity|]. split; [|split].
    + split; simpl; auto.
    + done.
    + by repeat constructor.
Qed.

Lemma handle_vad_event_speech_end (s : StreamingSession) :
  exists s' msgs,
    handle_vad_event speech_end s = (s', Ok tt)
    /\ event_effect s s' msgs
    /\ is_speaking s' = is_speaking s
    /\ tts_sequence s' = tts_sequence s
    /\ Forall (fun m => is_speech_start_message m = false) msgs.
Proof.
  unfold handle_vad_event. unfold_m.
  destruct (generate_final_transcript_effect
              (set_is_listening false
                 (set_websocket
                    (websocket s ++
                       [VADEventMessage speech_end
                          (Some (get_average_energy (vad s)))]) s)))
    as (s1 & msgs & Hrun & [Hs Hv Hf Hp] & _ & Hn).
  rewrite Hrun.
  exists (set_websocket (websocket s1 ++ [StatusMessage processing]) s1),
    (VADEventMessage speech_end (Some (get_average_energy (vad s)))
       :: msgs ++ [StatusMessage processing]).
  split; [done|].
  assert (Hkeep : is_speaking s1 = is_speaking s
                  /\ tts_sequence s1 = tts_sequence s).
  { revert Hrun. unfold generate_final_transcript. unfold_m.
    destruct (_ =? 0); intros [= <-]; by destruct s. }
  destruct Hkeep as [Hk1 Hk2].
  split; [split|]; simpl.
  - rewrite Hs. simpl. by rewrite <- !app_assoc.
  - by rewrite Hv.
  - left. by split.
  - constructor; [done|]. apply Forall_app. split; [done|by repeat constructor].
  - split; [done|]. split; [done|].
    constructor; [done|]. apply Forall_app. split; [done|by repeat constructor].
Qed.

Lemma handle_vad_event_speech_start_in_flight (s : StreamingSession) (S : Z) :
  is_speaking s = true -> tts_sequence s = Some S ->
  handle_vad_event speech_start s =
    (set_websocket
       (websocket s ++
          [VADEventMessage speech_start (Some (get_average_energy (vad s)));
           BargeInMessage S; StatusMessage listening; StatusMessage listening])
       (set_is_listening true
          (set_tts_sequence None (set_is_speaking false s))),
     Ok tt).
Proof.
  intros Hsp Htts. unfold handle_vad_event. unfold_m.
  set (s1 := set_is_listening true (set_websocket _ s)).
  assert (Hfl : tts_in_flight s1 = true).
  { unfold tts_in_flight. subst s1. simpl. rewrite Hsp, Htts.
    by rewrite bool_decide_eq_true_2. }
  rewrite Hfl.
  rewrite (handle_barge_in_set s1 S) by (subst s1; by destruct s).
  subst s1. destruct s; simpl. by rewrite <- !app_assoc.
Qed.

Lemma handle_vad_event_effect (event : vad_event) (s : StreamingSession) :
  exists s' msgs,
    handle_vad_event event s = (s', Ok tt) /\ event_effect s s' msgs.
Proof.
  destruct event.
  - destruct (tts_sequence s) as [S|] eqn:Htts;
      [destruct (is_speaking s) eqn:Hsp|].
    + eexists _, _. split;
        [by apply handle_vad_event_speech_start_in_flight|].
      split; simpl; auto; by repeat constructor.
    + unfold handle_vad_event. unfold_m.
      assert (tts_in_flight
                (set_is_listening true
                   (set_websocket
                      (websocket s ++
                         [VADEventMessage speech_start
                            (Some (get_average_energy (vad s)))]) s)) = false)
        as -> by (unfold tts_in_flight; simpl; by rewrite Hsp).
      eexists _, [_; _]. split; [reflexivity|].
      split; simpl; auto; [by rewrite <- app_assoc | by repeat constructor].
    + unfold handle_vad_event. unfold_m.
      rewrite tts_in_flight_unset by (by destruct s).
      eexists _, [_; _]. split; [reflexivity|].
      split; simpl; auto; [by rewrite <- app_assoc | by repeat constructor].
  - destruct (handle_vad_event_speech_end s) as (s' & msgs & H & He & _).
    by exists s', msgs.
Qed.

Lemma for_each_cons {S A} (x : A) (xs : list A) (body : A -> M S unit) (s s' : S) :
  body x s = (s', Ok tt) ->
  for_each (x :: xs) body s = for_each xs body s'.
Proof. intros H. simpl. unfold bind. by rewrite H. Qed.

Lemma for_each_events_effect (events : list vad_event) (s : StreamingSession) :
  exists s' msgs,
    for_each events handle_vad_event s = (s', Ok tt)
    /\ event_effect s s' msgs.
Proof.
  revert s. induction events as [|e events IH]; intros s.
  - exists s, []. split; [done|apply event_effect_refl].
  - destruct (handle_vad_event_effect e s) as (s1 & m1 & H1 & E1).
    destruct (IH s1) as (s2 & m2 & H2 & E2).
    exists s2, (m1 ++ m2). rewrite (for_each_cons _ _ _ _ _ H1).
    split; [done|]. by eapply event_effect_trans.
Qed.

Lemma for_each_events_first_speech_start
    (events : list vad_event) (s : StreamingSession) (S : Z) :
  speech_start ∈ events ->
  is_speaking s = true -> tts_sequence s = Some S ->
  exists s' before energy after,
    for_each events handle_vad_event s = (s', Ok tt)
    /\ websocket s' =
         websocket s ++ before ++
           VADEventMessage speech_start energy :: BargeInMessage S
             :: StatusMessage listening :: after
    /\ Forall (fun m => is_speech_start_message m = false) before
    /\ tts_sequence s' = None /\ is_speaking s' = false.
Proof.
  revert s. induction events as [|e events IH]; intros s Hin Hsp Htts.
  - by apply elem_of_nil in Hin.
  - destruct e.
    + pose proof (handle_vad_event_speech_start_in_flight s S Hsp Htts) as H1.
      rewrite (for_each_cons _ _ _ _ _ H1).
      destruct (for_each_events_effect events
                  (set_websocket
                     (websocket s ++
                        [VADEventMessage speech_start
                           (Some (get_average_energy (vad s)));
                         BargeInMessage S; StatusMessage listening;
                         StatusMessage listening])
                     (set_is_listening true
                        (set_tts_sequence None (set_is_speaking false s)))))
        as (s2 & m2 & H2 & [Hs _ Hf _]).
      exists s2, [], (Some (get_average_energy (vad s))),
        (StatusMessage listening :: m2).
      split; [done|]. simpl in *. split; [|split; [done|]].
      * rewrite Hs. by rewrite <- app_assoc.
      * destruct Hf as [[-> ->]|[-> ->]]; by split.
    + apply elem_of_cons in Hin as [Hin|Hin]; [done|].
      destruct (handle_vad_event_speech_end s)
        as (s1 & m1 & H1 & [Hs1 _ _ _] & Hsp1 & Htts1 & Hn1).
      rewrite (for_each_cons _ _ _ _ _ H1).
      destruct (IH s1 Hin) as (s2 & before & energy & after & H2 & Hs2 & Hn2 & Hc);
        [congruence..|].
      exists s2, (m1 ++ before), energy, after.
      split; [done|]. split; [|split; [by apply Forall_app|done]].
      rewrite Hs2, Hs1. by rewrite <- !app_assoc.
Qed.

Lemma handle_audio_input_partial_run (s : StreamingSession) :
  handle_audio_input_partial s =
    (if vad_is_speaking (vad s)
        && (16000 <? Z.of_nat (length (audio_buffer s)))
     then set_websocket
            (websocket s ++
               [TranscriptMessage
                  ("Partial transcript... (buffer size: "
                     ++ str_of_int (Z.of_nat (length (audio_buffer s)))
                     ++ " bytes)")%string
                  false (float_lit 75 (-2))]) s
     else s, Ok tt).
Proof.
  unfold handle_audio_input_partial, generate_partial_transcript. unfold_m.
  by destruct (_ && _).
Qed.

Lemma handle_audio_input_events_run
    (message : AudioInputMessage) (s : StreamingSession)
    (audio_bytes : list byte) (v' : VoiceActivityDetector)
    (vad_events : list vad_event) :
  b64decode (data message) = Ok audio_bytes ->
  process_chunk audio_bytes "pcm16" (vad s) = (v', Ok vad_events) ->
  handle_audio_input_events message s =
    for_each vad_events handle_vad_event
      (set_vad v' (set_audio_buffer (audio_buffer s ++ audio_bytes) s)).
Proof.
  intros Hd Hc. unfold handle_audio_input_events. unfold_m.
  rewrite Hd. simpl. by rewrite Hc.
Qed.

Lemma handle_audio_input_after_events
    (message : AudioInputMessage) (s s1 : StreamingSession) :
  handle_audio_input_events message s = (s1, Ok tt) ->
  handle_audio_input message s = handle_audio_input_partial s1.
Proof.
  intros H. unfold handle_audio_input, handle_audio_input_try. unfold_m.
  rewrite H. rewrite handle_audio_input_partial_run. done.
Qed.

(** C1: a session with [is_speaking] set and [tts_sequence = S] handles an
    audio message whose chunk makes the detector report a [speech_start]:
    right after the VAD message of the first [speech_start] the session
    sends [BargeIn(S)] and then [Status(listening)], and when the handler
    returns [tts_sequence] is unset and [is_speaking] is false. *)
Theorem speech_start_cancels_tts
    (s : StreamingSession) (message : AudioInputMessage) (S : Z)
    (audio_bytes : list byte) (v' : VoiceActivityDetector)
    (vad_events : list vad_event) :
  is_speaking s = true ->
  tts_sequence s = Some S ->
  b64decode (data message) = Ok audio_bytes ->
  process_chunk audio_bytes "pcm16" (vad s) = (v', Ok vad_events) ->
  speech_start ∈ vad_events ->
  exists s' before energy after,
    handle_audio_input message s = (s', Ok tt)
    /\ websocket s' =
         websocket s ++ before ++
           VADEventMessage speech_start energy :: BargeInMessage S
             :: StatusMessage listening :: after
    /\ Forall (fun m => is_speech_start_message m = false) before
    /\ tts_sequence s' = None
    /\ is_speaking s' = false.
Proof.
  intros Hsp Htts Hd Hc Hin.
  pose proof (handle_audio_input_events_run _ _ _ _ _ Hd Hc) as Hev.
  destruct (for_each_events_first_speech_start vad_events
              (set_vad v' (set_audio_buffer (audio_buffer s ++ audio_bytes) s))
              S Hin)
    as (s1 & before & energy & after & Hrun & Hs & Hn & Ht & Hi);
    [by destruct s..|].
  rewrite Hrun in Hev.
  rewrite (handle_audio_input_after_events _ _ _ Hev).
  rewrite handle_audio_input_partial_run.
  destruct (_ && _).
  - eexists _, before, energy, (after ++ [_]). split; [reflexivity|].
    simpl. split; [|done]. rewrite Hs. simpl.
    by rewrite <- !app_assoc.
  - exists s1, before, energy, after. by simpl in Hs.
Qed.

(** ** The detector: chunks and frames *)

Lemma process_chunk_loop_frames
    (a : ndarray) (size : Z) (indices : list Z) (events : list vad_event)
    (v : VoiceActivityDetector) :
  process_chunk_loop a size indices events v =
    match process_frames (frame_at a size <$> indices) v with
    | (v', Ok es) => (v', Ok (events ++ es))
    | (v', Raise e) => (v', Raise e)
    end.
Proof.
  revert events v. induction indices as [|i indices IH]; intros events v.
  - simpl. unfold ret. by rewrite app_nil_r.
  - rewrite fmap_cons. cbn [process_chunk_loop process_frames].
    unfold bind, ret. fold (frame_at a size i).
    destruct (process_frame (frame_at a size i) v) as [v1 [event|e]]; [|done].
    rewrite IH.
    destruct (process_frames (frame_at a size <$> indices) v1) as [v2 [es|e]];
      [|done].
    destruct event; [|done]. by rewrite <- app_assoc.
Qed.

Lemma len_nonneg (a : ndarray) : 0 <= len a.
Proof. destruct a; simpl; lia. Qed.














(** ** The detector: confirming speech *)

Lemma process_frame_silence_loud
    (v : VoiceActivityDetector) (frame : ndarray) (N : Z) :
  state v = Silence ->
  is_speech (config v) frame = true ->
  speech_pad_frames (config v) = Ok N ->
  process_frame frame v =
    let v1 := set_speech_frames (speech_frames v + 1)
                (push_history (calculate_energy frame) v) in
    if N <=? speech_frames v + 1
    then (set_silence_frames 0 (set_state Speech v1), Ok (Some speech_start))
    else (v1, Ok None).
Proof.
  unfold is_speech. intros Hst Hsp HN. unfold process_frame. unfold_m.
  simpl. rewrite Hst, Hsp. unfold_m. simpl. rewrite HN.
  by destruct (N <=? _).
Qed.

Lemma process_frame_silence_quiet (v : VoiceActivityDetector) (frame : ndarray) :
  state v = Silence ->
  is_speech (config v) frame = false ->
  process_frame frame v =
    (set_speech_frames 0 (push_history (calculate_energy frame) v), Ok None).
Proof.
  unfold is_speech. intros Hst Hsp. unfold process_frame. unfold_m.
  simpl. by rewrite Hst, Hsp.
Qed.

Lemma process_frames_app (l1 l2 : list ndarray) (v : VoiceActivityDetector) :
  process_frames (l1 ++ l2) v =
    match process_frames l1 v with
    | (v1, Ok e1) =>
        match process_frames l2 v1 with
        | (v2, Ok e2) => (v2, Ok (e1 ++ e2))
        | (v2, Raise e) => (v2, Raise e)
        end
    | (v1, Raise e) => (v1, Raise e)
    end.
Proof.
  revert v. induction l1 as [|f l1 IH]; intros v.
  - simpl. unfold ret. by destruct (process_frames l2 v) as [v2 [e2|e]].
  - rewrite <- app_comm_cons. cbn [process_frames]. unfold bind, ret.
    destruct (process_frame f v) as [v1 [event|e]]; [|done].
    rewrite IH.
    destruct (process_frames l1 v1) as [v2 [e1|e]]; [|done].
    destruct (process_frames l2 v2) as [v3 [e2|e]]; [|done].
    by destruct event.
Qed.

(** Fewer loud frames than the padding asks for: the detector counts them
    and stays silent. *)
Lemma process_frames_counting
    (run : list ndarray) (v : VoiceActivityDetector) (N : Z) :
  state v = Silence ->
  speech_pad_frames (config v) = Ok N ->
  Forall (fun f => is_speech (config v) f = true) run ->
  speech_frames v + Z.of_nat (length run) < N ->
  exists v',
    process_frames run v = (v', Ok [])
    /\ state v' = Silence
    /\ config v' = config v
    /\ speech_frames v' = speech_frames v + Z.of_nat (length run).
Proof.
  revert v. induction run as [|f run IH]; intros v Hst HN Hall Hlt.
  - exists v. simpl. repeat split; try done. lia.
  - apply Forall_cons in Hall as [Hf Hall].
    rewrite length_cons in Hlt.
    pose proof (process_frame_silence_loud v f N Hst Hf HN) as Hstep.
    cbv zeta in Hstep.
    rewrite (proj2 (Z.leb_gt _ _)) in Hstep by lia.
    destruct (IH (set_speech_frames (speech_frames v + 1)
                    (push_history (calculate_energy f) v)))
      as (v' & Hrun & Hst' & Hc' & Hn'); try done.
    { simpl. lia. }
    exists v'. cbn [process_frames]. unfold bind, ret.
    rewrite Hstep, Hrun. repeat split; try done.
    rewrite Hn', length_cons. simpl. lia.
Qed.

(** C4: a detector in the Silence state at the start of a run
    ([speech_frames = 0]), with [speech_pad_frames = N] and [N >= 1],
    receives a run of frames above the threshold.  A run of fewer than
    [N] frames returns no event and leaves the detector silent, and a
    frame at or below the threshold after it puts [speech_frames] back to
    0.  A run of exactly [N] frames returns exactly one event,
    [speech_start]; it is the [N]-th frame that returns it, and the
    detector is then in the Speech state. *)
Theorem speech_start_on_nth_frame
    (v : VoiceActivityDetector) (N : Z) (run : list ndarray) :
  state v = Silence ->
  speech_frames v = 0 ->
  speech_pad_frames (config v) = Ok N ->
  1 <= N ->
  Forall (fun f => is_speech (config v) f = true) run ->
  (Z.of_nat (length run) < N ->
     exists v',
       process_frames run v = (v', Ok [])
       /\ state v' = Silence
       /\ forall quiet, is_speech (config v) quiet = false ->
            exists v'',
              process_frame quiet v' = (v'', Ok None)
              /\ speech_frames v'' = 0
              /\ state v'' = Silence)
  /\ (Z.of_nat (length run) = N ->
        exists v' vm before last,
          run = before ++ [last]
          /\ process_frames before v = (vm, Ok [])
          /\ process_frame last vm = (v', Ok (Some speech_start))
          /\ process_frames run v = (v', Ok [speech_start])
          /\ state v' = Speech).
Proof.
  intros Hst H0 HN H1 Hall. split.
  - intros Hlt.
    destruct (process_frames_counting run v N) as (v' & Hrun & Hst' & Hc' & _);
      [done..|lia|].
    exists v'. repeat split; try done.
    intros quiet Hq. rewrite <- Hc' in Hq.
    rewrite (process_frame_silence_quiet v' quiet Hst' Hq).
    eexists. by repeat split.
  - intros Hlen.
    destruct run as [|f0 run0] using rev_ind; [simpl in Hlen; lia|].
    clear IHrun0. rename f0 into last.
    rewrite length_app, length_cons in Hlen. simpl in Hlen.
    apply Forall_app in Hall as [Hbefore Hlast].
    apply Forall_cons in Hlast as [Hlast _].
    destruct (process_frames_counting run0 v N)
      as (vm & Hrun & Hstm & Hcm & Hnm); [done..|lia|].
    rewrite <- Hcm in Hlast, HN.
    pose proof (process_frame_silence_loud vm last N Hstm Hlast HN) as Hstep.
    cbv zeta in Hstep.
    rewrite (proj2 (Z.leb_le _ _)) in Hstep by lia.
    eexists _, vm, run0, last. split; [done|]. split; [done|].
    split; [exact Hstep|]. split; [|done].
    rewrite process_frames_app, Hrun. cbn [process_frames].
    unfold bind, ret. by rewrite Hstep.
Qed.

(** ** Partial transcripts *)

Lemma handle_audio_input_events_effect
    (message : AudioInputMessage) (s s1 : StreamingSession) (r : result unit) :
  handle_audio_input_events message s = (s1, r) ->
  exists msgs,
    websocket s1 = websocket s ++ msgs
    /\ Forall (fun m => is_partial_transcript m = false) msgs
    /\ ((is_speaking s1 = is_speaking s /\ tts_sequence s1 = tts_sequence s)
        \/ (is_speaking s1 = false /\ tts_sequence s1 = None)).
Proof.
  unfold handle_audio_input_events. unfold_m.
  destruct (b64decode (data message)) as [audio_bytes|e].
  - simpl.
    destruct (process_chunk audio_bytes "pcm16" (vad s)) as [v' [events|e]].
    + destruct (for_each_events_effect events
                  (set_vad v'
                     (set_audio_buffer (audio_buffer s ++ audio_bytes) s)))
        as (s2 & msgs & Hrun & [Hs _ Hf Hp]).
      rewrite Hrun. intros [= <- <-]. exists msgs. by destruct s.
    + intros [= <- <-]. exists []. simpl. rewrite app_nil_r. auto.
  - intros [= <- <-]. exists []. rewrite app_nil_r. auto.
Qed.

(** C7: when the decoding and the loop over the VAD events of the chunk
    have run, leaving the session [s1], [handle_audio_input] sends one
    partial transcript if the detector of [s1] is in the Speech state and
    the buffer of [s1] holds more than 16000 bytes, and nothing
    otherwise; the transcript is added to the messages sent and nothing
    else of the session changes, the audio buffer in particular; and no
    message sent before it during the call is a partial transcript. *)
Theorem partial_transcript_rule
    (message : AudioInputMessage) (s s1 : StreamingSession) :
  handle_audio_input_events message s = (s1, Ok tt) ->
  exists s' text confidence msgs,
    handle_audio_input message s = (s', Ok tt)
    /\ s' =
         (if vad_is_speaking (vad s1)
             && (16000 <? Z.of_nat (length (audio_buffer s1)))
          then set_websocket
                 (websocket s1 ++ [TranscriptMessage text false confidence]) s1
          else s1)
    /\ audio_buffer s' = audio_buffer s1
    /\ websocket s1 = websocket s ++ msgs
    /\ Forall (fun m => is_partial_transcript m = false) msgs.
Proof.
  intros H.
  destruct (handle_audio_input_events_effect _ _ _ _ H) as (msgs & Hs & Hp & _).
  rewrite (handle_audio_input_after_events _ _ _ H).
  rewrite handle_audio_input_partial_run.
  eexists _, _, _, msgs. split; [reflexivity|].
  split; [reflexivity|]. split; [by destruct (_ && _)|]. by split.
Qed.

(** ** Adapting the threshold *)

(** C9: [adapt_threshold(p)] with fewer than 10 energies in the history
    returns the detector as it was.  With 10 or more, and [new] the
    [p]-th percentile of the history, the threshold of the configuration
    becomes [new] if [abs(new - threshold) > 0.005] and the detector is
    as it was if not.  In every case, also when the percentile raises,
    the state, the two counters, the history, its capacity and the other
    fields of the configuration are as before. *)
Theorem adapt_threshold_rule (v : VoiceActivityDetector) (p : float) :
  (Z.of_nat (length (energy_history v)) < 10 ->
     adapt_threshold p v = (v, Ok tt))
  /\ (10 <= Z.of_nat (length (energy_history v)) ->
      forall new, np_percentile (energy_history v) p = Ok new ->
        exists v',
          adapt_threshold p v = (v', Ok tt)
          /\ (float_gt
                (float_abs (float_sub new (energy_threshold (config v))))
                (float_lit 5 (-3)) = true ->
              energy_threshold (config v') = new)
          /\ (float_gt
                (float_abs (float_sub new (energy_threshold (config v))))
                (float_lit 5 (-3)) = false ->
              v' = v))
  /\ (forall v' r, adapt_threshold p v = (v', r) ->
        state v' = state v
        /\ speech_frames v' = speech_frames v
        /\ silence_frames v' = silence_frames v
        /\ energy_history v' = energy_history v
        /\ max_history_size v' = max_history_size v
        /\ speech_pad_ms (config v') = speech_pad_ms (config v)
        /\ silence_duration_ms (config v') = silence_duration_ms (config v)
        /\ sample_rate (config v') = sample_rate (config v)
        /\ frame_duration_ms (config v') = frame_duration_ms (config v)).
Proof.
  split; [|split].
  - intros Hlt. unfold adapt_threshold. unfold_m.
    by rewrite (proj2 (Z.ltb_lt _ _)).
  - intros Hge new Hnew. unfold adapt_threshold. unfold_m.
    rewrite (proj2 (Z.ltb_ge _ _)) by done.
    rewrite Hnew. destruct (float_gt _ _); eexists; by repeat split.
  - intros v' r. unfold adapt_threshold. unfold_m.
    destruct (_ <? 10); [by intros [= <- <-]|].
    destruct (np_percentile _ _); [|by intros [= <- <-]].
    destruct (float_gt _ _); by intros [= <- <-].
Qed.

(** ** The flags of the synthesis turn *)

Lemma speaking_iff_tts_kept_or_cleared (s s' : StreamingSession) :
  speaking_iff_tts s ->
  (is_speaking s' = is_speaking s /\ tts_sequence s' = tts_sequence s)
  \/ (is_speaking s' = false /\ tts_sequence s' = None) ->
  speaking_iff_tts s'.
Proof.
  unfold speaking_iff_tts. intros Hinv [[-> ->]|[-> ->]]; [done|].
  split; [done|]. by intros [].
Qed.

Lemma handle_barge_in_flags (s s' : StreamingSession) (r : result unit) :
  handle_barge_in s = (s', r) ->
  (is_speaking s' = is_speaking s /\ tts_sequence s' = tts_sequence s)
  \/ (is_speaking s' = false /\ tts_sequence s' = None).
Proof.
  destruct (tts_sequence s) as [S|] eqn:Htts.
  - rewrite (handle_barge_in_set s S Htts). intros [= <- <-]. by right.
  - rewrite (handle_barge_in_unset s Htts). intros [= <- <-]. left.
    by rewrite Htts.
Qed.

Lemma handle_control_flags
    (m : ControlMessage) (s s' : StreamingSession) (r : result unit) :
  handle_control m s = (s', r) ->
  (is_speaking s' = is_speaking s /\ tts_sequence s' = tts_sequence s)
  \/ (is_speaking s' = false /\ tts_sequence s' = None).
Proof.
  unfold handle_control. destruct (action m); unfold_m.
  - intros [= <- <-]. by left.
  - destruct (vad_is_speaking _).
    + destruct (generate_final_transcript_effect (set_is_listening false s))
        as (s1 & msgs & Hrun & [_ _ Hf _] & _).
      rewrite Hrun. intros [= <- <-]. simpl in *. exact Hf.
    + intros [= <- <-]. by left.
  - destruct (tts_in_flight s); [apply handle_barge_in_flags|].
    intros [= <- <-]. by left.
Qed.

Lemma handle_audio_input_flags
    (m : AudioInputMessage) (s s' : StreamingSession) (r : result unit) :
  handle_audio_input m s = (s', r) ->
  (is_speaking s' = is_speaking s /\ tts_sequence s' = tts_sequence s)
  \/ (is_speaking s' = false /\ tts_sequence s' = None).
Proof.
  unfold handle_audio_input, handle_audio_input_try. unfold_m.
  destruct (handle_audio_input_events m s) as [s1 [[]|e]] eqn:Hev;
    destruct (handle_audio_input_events_effect _ _ _ _ Hev)
      as (msgs & _ & _ & Hf).
  - rewrite handle_audio_input_partial_run. intros [= <- <-].
    by destruct (_ && _).
  - intros [= <- <-]. exact Hf.
Qed.

(** C10: a session is created with [is_speaking] false and
    [tts_sequence] unset, and each of [start_tts_playback],
    [end_tts_playback], [handle_barge_in], [handle_control] and
    [handle_audio_input] takes a session in which [is_speaking] holds
    exactly when [tts_sequence] is set to a session in which it does. *)
Theorem speaking_iff_tts_invariant :
  (forall ws id, speaking_iff_tts (StreamingSession_init ws id))
  /\ (forall op s, speaking_iff_tts s ->
        speaking_iff_tts (fst (session_step op s))).
Proof.
  split.
  - intros ws id. unfold speaking_iff_tts. simpl. split; [done|]. by intros [].
  - intros op s Hinv. destruct op as [sequence| | |m|m]; simpl.
    + unfold speaking_iff_tts. simpl. by split.
    + unfold speaking_iff_tts. simpl. split; [done|]. by intros [].
    + destruct (handle_barge_in s) as [s' r] eqn:H.
      eapply speaking_iff_tts_kept_or_cleared; [done|].
      by eapply handle_barge_in_flags.
    + destruct (handle_control m s) as [s' r] eqn:H.
      eapply speaking_iff_tts_kept_or_cleared; [done|].
      by eapply handle_control_flags.
    + destruct (handle_audio_input m s) as [s' r] eqn:H.
      eapply speaking_iff_tts_kept_or_cleared; [done|].
      by eapply handle_audio_input_flags.
Qed.

(** ** The session manager *)

Lemma str_of_int_inj (a b : Z) : str_of_int a = str_of_int b -> a = b.
Proof.
  unfold str_of_int. intros H. apply DecimalZ.to_int_inj.
  assert (E : forall z,
             NilZero.int_of_string (NilZero.string_of_int (Z.to_int z))
             = Some (Z.to_int z)).
  { intros z. apply NilZero.isi; destruct z; simpl; try discriminate;
      intros [= E]; revert E; apply Unsigned.to_uint_nonnil. }
  pose proof (E a) as Ea. rewrite H, E in Ea. congruence.
Qed.

Lemma id_of_counter_inj : Inj (=) (=) id_of_counter.
Proof.
  intros a b H. unfold id_of_counter in H.
  by apply String.app_inj, str_of_int_inj in H.
Qed.

Lemma session_counter_remove_session (id : string) (m : WebSocketManager) :
  session_counter (remove_session id m) = session_counter m.
Proof. unfold remove_session. by destruct (sessions m !! id). Qed.

Lemma issued_counters (calls : list manager_call) (m : WebSocketManager) :
  Forall (fun x => session_counter m < x.1 /\ x.2 = id_of_counter x.1)
    (issued calls m)
  /\ StronglySorted Z.lt ((issued calls m).*1).
Proof.
  revert m. induction calls as [|[ws|id] calls IH]; intros m; simpl.
  - split; constructor.
  - destruct (IH {| sessions :=
                      <[id_of_counter (session_counter m + 1) :=
                          StreamingSession_init ws
                            (id_of_counter (session_counter m + 1))]>
                        (sessions m);
                    session_counter := session_counter m + 1 |})
      as [Hall Hsorted].
    simpl in Hall. split.
    + constructor; [simpl; split; [lia|done]|].
      eapply Forall_impl; [exact Hall|]. simpl. intros x [Hlt Hid].
      split; [lia|done].
    + constructor; [exact Hsorted|].
      apply Forall_fmap. eapply Forall_impl; [exact Hall|].
      simpl. intros x [Hlt _]. simpl. lia.
  - destruct (IH (remove_session id m)) as [Hall Hsorted].
    rewrite session_counter_remove_session in Hall. by split.
Qed.

Lemma StronglySorted_lt_NoDup (l : list Z) : StronglySorted Z.lt l -> NoDup l.
Proof.
  induction 1 as [|x l Hs IH Hall]; constructor; [|done].
  intros Hin. rewrite Forall_forall in Hall. specialize (Hall x Hin). lia.
Qed.

(** C8: whatever calls of [create_session] and [remove_session] a manager
    receives, in whatever order, the counters that the successive
    [create_session] calls issue are strictly increasing, each session
    gets the id ["session-<counter>"], and no id is issued twice. *)
Theorem session_ids_unique_increasing
    (calls : list manager_call) (m : WebSocketManager) :
  StronglySorted Z.lt ((issued calls m).*1)
  /\ (issued calls m).*2 = id_of_counter <$> (issued calls m).*1
  /\ Forall (fun n => session_counter m < n) ((issued calls m).*1)
  /\ NoDup ((issued calls m).*2).
Proof.
  destruct (issued_counters calls m) as [Hall Hsorted].
  assert (Hids : (issued calls m).*2 = id_of_counter <$> (issued calls m).*1).
  { clear Hsorted. induction Hall as [|x l [_ Hx] _ IH]; [done|].
    rewrite !fmap_cons. by rewrite IH, Hx. }
  split; [done|]. split; [done|]. split.
  - apply Forall_fmap. eapply Forall_impl; [exact Hall|]. by intros x [? _].
  - rewrite Hids. apply NoDup_fmap_2_strong.
    + intros a b _ _. apply id_of_counter_inj.
    + by apply StronglySorted_lt_NoDup.
Qed.

(** ** Audio that does not decode *)

(** C6, as the code has it: when [base64.b64decode] raises on the [data]
    of an audio message, [handle_audio_input] sends exactly one message,
    [Error] with the code ["audio_processing_error"] and the text of the
    exception, and returns normally, so that the message loop goes on;
    the audio buffer, the detector and the flags of the session are as
    before. *)
Theorem undecodable_audio_reports_error
    (s : StreamingSession) (message : AudioInputMessage) (e : exn) :
  b64decode (data message) = Raise e ->
  handle_audio_input message s =
    (set_websocket
       (websocket s ++
          [ErrorMessage "audio_processing_error"
             ("Failed to process audio: " ++ str e)%string]) s,
     Ok tt)
  /\ audio_buffer (fst (handle_audio_input message s)) = audio_buffer s
  /\ vad (fst (handle_audio_input message s)) = vad s
  /\ is_listening (fst (handle_audio_input message s)) = is_listening s
  /\ is_speaking (fst (handle_audio_input message s)) = is_speaking s
  /\ tts_sequence (fst (handle_audio_input message s)) = tts_sequence s.
Proof.
  intros H.
  assert (Hrun : handle_audio_input message s =
    (set_websocket
       (websocket s ++
          [ErrorMessage "audio_processing_error"
             ("Failed to process audio: " ++ str e)%string]) s,
     Ok tt)).
  { unfold handle_audio_input, handle_audio_input_try,
      handle_audio_input_events. unfold_m. by rewrite H. }
  rewrite Hrun. by repeat split.
Qed.

(** * Further properties of the detector *)

Lemma process_frame_speech_quiet
    (v : VoiceActivityDetector) (frame : ndarray) (M : Z) :
  state v = Speech ->
  is_speech (config v) frame = false ->
  config_silence_frames (config v) = Ok M ->
  process_frame frame v =
    let v1 := set_silence_frames (silence_frames v + 1)
                (push_history (calculate_energy frame) v) in
    if M <=? silence_frames v + 1
    then (set_speech_frames 0 (set_state Silence v1), Ok (Some speech_end))
    else (v1, Ok None).
Proof.
  unfold is_speech. intros Hst Hsp HM. unfold process_frame. unfold_m.
  simpl. rewrite Hst, Hsp. unfold_m. simpl. rewrite HM.
  by destruct (M <=? _).
Qed.

Lemma process_frame_speech_loud (v : VoiceActivityDetector) (frame : ndarray) :
  state v = Speech ->
  is_speech (config v) frame = true ->
  process_frame frame v =
    (set_silence_frames 0 (push_history (calculate_energy frame) v), Ok None).
Proof.
  unfold is_speech. intros Hst Hsp. unfold process_frame. unfold_m.
  simpl. by rewrite Hst, Hsp.
Qed.

Lemma process_frames_counting_silence
    (run : list ndarray) (v : VoiceActivityDetector) (M : Z) :
  state v = Speech ->
  config_silence_frames (config v) = Ok M ->
  Forall (fun f => is_speech (config v) f = false) run ->
  silence_frames v + Z.of_nat (length run) < M ->
  exists v',
    process_frames run v = (v', Ok [])
    /\ state v' = Speech
    /\ config v' = config v
    /\ silence_frames v' = silence_frames v + Z.of_nat (length run).
Proof.
  revert v. induction run as [|f run IH]; intros v Hst HM Hall Hlt.
  - exists v. simpl. repeat split; try done. lia.
  - apply Forall_cons in Hall as [Hf Hall].
    rewrite length_cons in Hlt.
    pose proof (process_frame_speech_quiet v f M Hst Hf HM) as Hstep.
    cbv zeta in Hstep.
    rewrite (proj2 (Z.leb_gt _ _)) in Hstep by lia.
    destruct (IH (set_silence_frames (silence_frames v + 1)
                    (push_history (calculate_energy f) v)))
      as (v' & Hrun & Hst' & Hc' & Hn'); try done.
    { simpl. lia. }
    exists v'. cbn [process_frames]. unfold bind, ret.
    rewrite Hstep, Hrun. repeat split; try done.
    rewrite Hn', length_cons. simpl. lia.
Qed.

(** X1: a detector in the Speech state with [silence_frames = 0], whose
    configuration gives [silence_frames = M] with [M >= 1], receives a
    run of frames at or below the threshold.  Fewer than [M] of them
    return no event and leave the detector in the Speech state, and a
    frame above the threshold after them puts the counter back to 0.
    Exactly [M] of them return one event, [speech_end], on the [M]-th
    frame, and the detector is in the Silence state with
    [speech_frames = 0]. *)
Theorem speech_end_on_mth_frame
    (v : VoiceActivityDetector) (M : Z) (run : list ndarray) :
  state v = Speech ->
  silence_frames v = 0 ->
  config_silence_frames (config v) = Ok M ->
  1 <= M ->
  Forall (fun f => is_speech (config v) f = false) run ->
  (Z.of_nat (length run) < M ->
     exists v',
       process_frames run v = (v', Ok [])
       /\ state v' = Speech
       /\ forall loud, is_speech (config v) loud = true ->
            exists v'',
              process_frame loud v' = (v'', Ok None)
              /\ silence_frames v'' = 0
              /\ state v'' = Speech)
  /\ (Z.of_nat (length run) = M ->
        exists v' vm before last,
          run = before ++ [last]
          /\ process_frames before v = (vm, Ok [])
          /\ process_frame last vm = (v', Ok (Some speech_end))
          /\ process_frames run v = (v', Ok [speech_end])
          /\ state v' = Silence
          /\ speech_frames v' = 0).
Proof.
  intros Hst H0 HM H1 Hall. split.
  - intros Hlt.
    destruct (process_frames_counting_silence run v M)
      as (v' & Hrun & Hst' & Hc' & _); [done..|lia|].
    exists v'. repeat split; try done.
    intros loud Hq. rewrite <- Hc' in Hq.
    rewrite (process_frame_speech_loud v' loud Hst' Hq).
    eexists. by repeat split.
  - intros Hlen.
    destruct run as [|f0 run0] using rev_ind; [simpl in Hlen; lia|].
    clear IHrun0. rename f0 into last.
    rewrite length_app, length_cons in Hlen. simpl in Hlen.
    apply Forall_app in Hall as [Hbefore Hlast].
    apply Forall_cons in Hlast as [Hlast _].
    destruct (process_frames_counting_silence run0 v M)
      as (vm & Hrun & Hstm & Hcm & Hnm); [done..|lia|].
    rewrite <- Hcm in Hlast, HM.
    pose proof (process_frame_speech_quiet vm last M Hstm Hlast HM) as Hstep.
    cbv zeta in Hstep.
    rewrite (proj2 (Z.leb_le _ _)) in Hstep by lia.
    eexists _, vm, run0, last. split; [done|]. split; [done|].
    split; [exact Hstep|]. split; [|done].
    rewrite process_frames_app, Hrun. cbn [process_frames].
    unfold bind, ret. by rewrite Hstep.
Qed.

Lemma int_of_truediv_raises (a b : Z) (e : exn) :
  int_of_truediv a b = Raise e ->
  b = 0 /\ e = ZeroDivisionError "division by zero"
  \/ b <> 0
     /\ e = OverflowError "integer division result too large for a float".
Proof.
  unfold int_of_truediv.
  destruct (Z.eqb_spec b 0) as [Hb|Hb]; [intros [= <-]; by left|].
  destruct (a =? 0); [done|]. cbv zeta.
  destruct (_ <? -1); [done|].
  destruct (2 ^ 1024 <=? _); [|done].
  intros [= <-]. by right.
Qed.

(** what one call of [process_frame] can do to the state, the
    configuration, the capacity and the history *)
Lemma process_frame_step
    (frame : ndarray) (v v' : VoiceActivityDetector)
    (r : result (option vad_event)) :
  process_frame frame v = (v', r) ->
  config v' = config v
  /\ max_history_size v' = max_history_size v
  /\ energy_history v'
     = energy_history (push_history (calculate_energy frame) v)
  /\ match r with
     | Ok None => state v' = state v
     | Ok (Some speech_start) => state v = Silence /\ state v' = Speech
     | Ok (Some speech_end) => state v = Speech /\ state v' = Silence
     | Raise e =>
         state v' = state v
         /\ (speech_pad_frames (config v) = Raise e
             \/ config_silence_frames (config v) = Raise e)
     end.
Proof.
  unfold process_frame. unfold_m. simpl.
  destruct (state v) eqn:Hst;
    destruct (float_gt _ _); simpl; unfold_m; simpl.
  - destruct (speech_pad_frames (config v)) as [n|e] eqn:Hn; simpl.
    + destruct (n <=? _); intros [= <- <-]; by repeat split.
    + intros [= <- <-]. repeat split; try done. by left.
  - intros [= <- <-]. by repeat split.
  - intros [= <- <-]. by repeat split.
  - destruct (config_silence_frames (config v)) as [n|e] eqn:Hn; simpl.
    + destruct (n <=? _); intros [= <- <-]; by repeat split.
    + intros [= <- <-]. repeat split; try done. by right.
Qed.

Lemma process_frames_alternates
    (frames : list ndarray) (v v' : VoiceActivityDetector)
    (events : list vad_event) :
  process_frames frames v = (v', Ok events) ->
  alternates (state v) events = Some (state v').
Proof.
  revert v events. induction frames as [|f frames IH]; intros v events.
  - simpl. unfold ret. by intros [= <- <-].
  - cbn [process_frames]. unfold bind, ret.
    destruct (process_frame f v) as [v1 [ev|e]] eqn:Hf; [|done].
    destruct (process_frames frames v1) as [v2 [es|e]] eqn:Hfs; [|done].
    intros [= <- <-].
    apply process_frame_step in Hf as (_ & _ & _ & Hst).
    specialize (IH _ _ Hfs).
    destruct ev as [[]|]; simpl.
    + destruct Hst as [-> Hst]. by rewrite <- Hst.
    + destruct Hst as [-> Hst]. by rewrite <- Hst.
    + by rewrite <- Hst.
Qed.

(** [process_chunk] is [process_frames] on the frames it cuts *)
Lemma process_chunk_as_frames
    (audio_chunk : list byte) (format : string) (a : ndarray)
    (v : VoiceActivityDetector) (size : Z) :
  frombuffer audio_chunk format = Ok a ->
  frame_size (config v) = Ok size ->
  size <> 0 ->
  exists frames, process_chunk audio_chunk format v = process_frames frames v.
Proof.
  intros Hf Hsize Hs. unfold process_chunk. unfold_m. rewrite Hf, Hsize.
  unfold py_range. rewrite (proj2 (Z.eqb_neq _ _)) by done.
  rewrite process_chunk_loop_frames.
  match goal with
  | |- context [process_frames ?fr v] =>
      exists fr; by destruct (process_frames fr v) as [v' [es|e]]
  end.
Qed.

(** either [process_chunk] raises before its loop, with the detector as
    it was, or it runs [process_frame] over the frames it cuts *)
Lemma process_chunk_cases
    (audio_chunk : list byte) (format : string) (v : VoiceActivityDetector) :
  (is_ok (frombuffer audio_chunk format) = false
   \/ is_ok (frame_size (config v)) = false
   \/ frame_size (config v) = Ok 0) /\
    (exists e, process_chunk audio_chunk format v = (v, Raise e))
  \/ (is_ok (frombuffer audio_chunk format) = true
      /\ exists size, frame_size (config v) = Ok size /\ size <> 0) /\
       (exists frames,
          process_chunk audio_chunk format v = process_frames frames v).
Proof.
  destruct (frombuffer audio_chunk format) as [a|e] eqn:Hf.
  - destruct (frame_size (config v)) as [size|e] eqn:Hsize.
    + destruct (Z.eq_dec size 0) as [->|H0].
      * left. split; [by right; right|].
        unfold process_chunk. unfold_m. rewrite Hf, Hsize. by eexists.
      * right. split; [split; [done|by exists size]|].
        by eapply process_chunk_as_frames.
    + left. split; [by right; left|].
      unfold process_chunk. unfold_m. rewrite Hf, Hsize. by eexists.
  - left. split; [by left|].
    unfold process_chunk. unfold_m. rewrite Hf. by eexists.
Qed.

(** X2: the events that [process_chunk] returns alternate: they are
    possible in that order from the state the detector was in, a
    [speech_start] only in the Silence state and a [speech_end] only in
    the Speech state, and they lead to the state the detector is left
    in. *)
Theorem process_chunk_events_alternate
    (audio_chunk : list byte) (format : string)
    (v v' : VoiceActivityDetector) (events : list vad_event) :
  process_chunk audio_chunk format v = (v', Ok events) ->
  alternates (state v) events = Some (state v').
Proof.
  intros H.
  destruct (process_chunk_cases audio_chunk format v)
    as [[_ [e He]]|[_ [frames Hfr]]].
  - congruence.
  - rewrite Hfr in H. by eapply process_frames_alternates.
Qed.


Lemma process_frames_history
    (frames : list ndarray) (v v' : VoiceActivityDetector)
    (r : result (list vad_event)) :
  process_frames frames v = (v', r) ->
  Z.of_nat (length (energy_history v)) <= max_history_size v ->
  config v' = config v
  /\ max_history_size v' = max_history_size v
  /\ Z.of_nat (length (energy_history v')) <= max_history_size v'.
Proof.
  revert v v' r. induction frames as [|f frames IH]; intros v v' r.
  - simpl. unfold ret. by intros [= <- <-].
  - cbn [process_frames]. unfold bind, ret. intros H Hlen.
    destruct (process_frame f v) as [v1 r1] eqn:Hf.
    apply process_frame_step in Hf as (Hc & Hm & Hh & _).
    assert (Hlen1 : Z.of_nat (length (energy_history v1))
                    <= max_history_size v1).
    { rewrite Hh, Hm. unfold push_history. simpl.
      destruct (Z.ltb_spec (max_history_size v)
                  (Z.of_nat (length (energy_history v ++
                                       [calculate_energy f]))));
        rewrite ?length_drop; rewrite length_app in *; simpl in *; lia. }
    destruct r1 as [ev|e].
    + destruct (process_frames frames v1) as [v2 r2] eqn:Hfs.
      destruct (IH _ _ _ Hfs Hlen1) as (Hc2 & Hm2 & Hl2).
      assert (v' = v2) as -> by (destruct r2; by injection H).
      repeat split; congruence.
    + injection H as <- <-. by repeat split.
Qed.

(** X3: [process_chunk] keeps the energy history within its capacity: if
    the history holds at most [max_history_size] energies before the
    call it does so after it, whether the call returns or raises; the
    configuration and the capacity are not touched. *)
Theorem process_chunk_history_bounded
    (audio_chunk : list byte) (format : string)
    (v v' : VoiceActivityDetector) (r : result (list vad_event)) :
  process_chunk audio_chunk format v = (v', r) ->
  Z.of_nat (length (energy_history v)) <= max_history_size v ->
  Z.of_nat (length (energy_history v')) <= max_history_size v'
  /\ max_history_size v' = max_history_size v
  /\ config v' = config v.
Proof.
  intros H Hlen.
  destruct (process_chunk_cases audio_chunk format v)
    as [[_ [e He]]|[_ [frames Hfr]]].
  - rewrite He in H. injection H as <- <-. by repeat split.
  - rewrite Hfr in H.
    destruct (process_frames_history _ _ _ _ H Hlen) as (Hc & Hm & Hl).
    by repeat split.
Qed.


Lemma length_le_words (size fuel : nat) (buf : list byte) (k : nat) :
  (0 < size)%nat ->
  (length buf <= fuel)%nat ->
  length buf = (k * size)%nat ->
  length (le_words size buf fuel) = k.
Proof.
  intros Hs. revert buf k. induction fuel as [|fuel IH]; intros buf k Hle Hk.
  - simpl. destruct k; [done|]. simpl in Hk. lia.
  - destruct buf as [|b buf].
    + simpl. destruct k; [done|]. simpl in Hk. lia.
    + destruct k as [|k]; [simpl in Hk; lia|].
      cbn [le_words]. rewrite length_cons. f_equal.
      apply IH; rewrite length_drop; simpl in *; lia.
Qed.

Lemma frombuffer_items_spec (size : nat) (buf : list byte) :
  (0 < size)%nat ->
  if Z.of_nat (length buf) mod Z.of_nat size =? 0
  then exists l, frombuffer_items size buf = Ok l
                 /\ Z.of_nat (length l) * Z.of_nat size
                    = Z.of_nat (length buf)
  else frombuffer_items size buf
       = Raise (ValueError "buffer size must be a multiple of element size").
Proof.
  intros Hs. unfold frombuffer_items.
  destruct (Z.eqb_spec (Z.of_nat (length buf) mod Z.of_nat size) 0) as [H|H];
    [|done].
  eexists. split; [done|].
  apply Z.mod_divide in H; [|lia]. destruct H as [q Hq].
  assert (Hq0 : 0 <= q) by nia.
  rewrite (length_le_words size (length buf) buf (Z.to_nat q)); [lia|done|lia|].
  apply Nat2Z.inj. rewrite Nat2Z.inj_mul, Z2Nat.id by done. done.
Qed.

(** X5: [np.frombuffer] as [process_chunk] uses it.  An unknown format
    raises [ValueError("Unsupported audio format: ..")].  For ["pcm16"],
    ["pcm8"] and ["float32"], with items of 2, 1 and 4 bytes, a buffer
    whose length is a multiple of the item size gives an array of
    length / item size samples, and any other buffer raises
    [ValueError]. *)
Theorem frombuffer_accepts (audio_chunk : list byte) (format : string) :
  match itemsize format with
  | None =>
      frombuffer audio_chunk format
      = Raise (ValueError ("Unsupported audio format: " ++ format))
  | Some size =>
      if Z.of_nat (length audio_chunk) mod size =? 0
      then exists a, frombuffer audio_chunk format = Ok a
                     /\ len a * size = Z.of_nat (length audio_chunk)
      else frombuffer audio_chunk format
           = Raise (ValueError
                      "buffer size must be a multiple of element size")
  end.
Proof.
  unfold itemsize, frombuffer.
  destruct (String.eqb format "pcm16");
    [|destruct (String.eqb format "pcm8");
      [|destruct (String.eqb format "float32"); [|done]]].
  - unfold frombuffer_int16.
    pose proof (frombuffer_items_spec 2 audio_chunk ltac:(lia)) as H.
    change (Z.of_nat 2) with 2 in H.
    destruct (_ =? 0); [|by rewrite H].
    destruct H as (l & -> & Hl). eexists. split; [done|].
    simpl. by rewrite length_fmap.
  - unfold frombuffer_int8.
    pose proof (frombuffer_items_spec 1 audio_chunk ltac:(lia)) as H.
    change (Z.of_nat 1) with 1 in H.
    destruct (_ =? 0); [|by rewrite H].
    destruct H as (l & -> & Hl). eexists. split; [done|].
    simpl. by rewrite length_fmap.
  - unfold frombuffer_float32.
    pose proof (frombuffer_items_spec 4 audio_chunk ltac:(lia)) as H.
    change (Z.of_nat 4) with 4 in H.
    destruct (_ =? 0); [|by rewrite H].
    destruct H as (l & -> & Hl). eexists. split; [done|].
    simpl. by rewrite length_fmap.
Qed.

(** X6: [reset] puts the detector back in the Silence state with both
    counters at 0 and an empty history, so that the average energy is
    0.0; it keeps the configuration, also a threshold that
    [adapt_threshold] has changed.  With the capacity of 100 that
    [VoiceActivityDetector(config)] sets, the detector after [reset] is
    the new detector of its configuration. *)
Theorem reset_is_new_detector (v : VoiceActivityDetector) :
  config (reset v) = config v
  /\ get_average_energy (reset v) = float_lit 0 0
  /\ vad_is_speaking (reset v) = false
  /\ reset (reset v) = reset v
  /\ (max_history_size v = 100 ->
      reset v = VoiceActivityDetector_init (config v)).
Proof.
  repeat split. intros H. unfold VoiceActivityDetector_init.
  rewrite <- H. by destruct v.
Qed.

(** * Further properties of the session *)

Lemma length_zero_nil {A} (l : list A) : Z.of_nat (length l) = 0 -> l = [].
Proof. destruct l; [done|]. simpl. lia. Qed.

Lemma generate_final_transcript_run (s : StreamingSession) :
  generate_final_transcript s =
    (if Z.of_nat (length (audio_buffer s)) =? 0 then s
     else set_audio_buffer []
            (set_websocket
               (websocket s ++
                  [TranscriptMessage
                     ("This is a placeholder final transcript for "
                        ++ format_1f
                             (int_truediv
                                (Z.of_nat (length (audio_buffer s)))
                                (16000 * 2))
                        ++ "s of audio.")%string
                     true (float_lit 95 (-2))]) s),
     Ok tt).
Proof.
  unfold generate_final_transcript. unfold_m. by destruct (_ =? 0).
Qed.

Lemma generate_final_transcript_buffer (s : StreamingSession) :
  audio_buffer (fst (generate_final_transcript s)) = [].
Proof.
  rewrite generate_final_transcript_run. simpl.
  destruct (Z.eqb_spec (Z.of_nat (length (audio_buffer s))) 0) as [H|H];
    [by apply length_zero_nil|done].
Qed.

(** X7: [generate_final_transcript] leaves the audio buffer empty in
    every case; with an empty buffer it sends nothing and changes
    nothing; and calling it twice in a row is calling it once: the
    second call finds the buffer empty. *)
Theorem generate_final_transcript_once (s : StreamingSession) :
  audio_buffer (fst (generate_final_transcript s)) = []
  /\ (audio_buffer s = [] -> generate_final_transcript s = (s, Ok tt))
  /\ (generate_final_transcript ;;; generate_final_transcript) s
     = generate_final_transcript s.
Proof.
  split; [apply generate_final_transcript_buffer|]. split.
  - intros H. rewrite generate_final_transcript_run. by rewrite H.
  - unfold bind.
    pose proof (generate_final_transcript_buffer s) as Hb.
    rewrite generate_final_transcript_run in *. simpl in *.
    rewrite generate_final_transcript_run. by rewrite Hb.
Qed.

(** X8: [handle_barge_in] twice in a row is [handle_barge_in] once: the
    second call finds [tts_sequence] unset and does nothing, so that one
    synthesis turn is cancelled by one [BargeIn] message at most. *)
Theorem handle_barge_in_idempotent (s : StreamingSession) :
  (handle_barge_in ;;; handle_barge_in) s = handle_barge_in s
  /\ tts_in_flight (fst (handle_barge_in s)) = false.
Proof.
  unfold bind. destruct (tts_sequence s) as [S|] eqn:Htts.
  - rewrite (handle_barge_in_set s S Htts). split; [|done].
    by rewrite handle_barge_in_unset.
  - rewrite (handle_barge_in_unset s Htts). split.
    + by rewrite handle_barge_in_unset.
    + by apply tts_in_flight_unset.
Qed.

(** X9: whatever the session was doing, [start_tts_playback(seq)]
    followed by the control action [cancel_tts] sends [Status(speaking)],
    [BargeIn(seq)] and [Status(listening)], in that order and nothing
    else, and leaves the session listening with no synthesis turn:
    [cancel_tts] cancels the turn that was started last. *)
Theorem cancel_tts_cancels_started_turn
    (s : StreamingSession) (seq : Z) (ts : option Z) :
  (start_tts_playback seq ;;; handle_control (mkControl cancel_tts ts)) s =
    (set_websocket
       (websocket s ++
          [StatusMessage speaking; BargeInMessage seq; StatusMessage listening])
       (set_is_listening true
          (set_tts_sequence None (set_is_speaking false s))),
     Ok tt).
Proof.
  unfold start_tts_playback, handle_control. simpl. unfold_m.
  set (s1 := set_websocket _ _).
  assert (Hfl : tts_in_flight s1 = true) by done.
  rewrite Hfl, (handle_barge_in_set s1 seq) by done.
  subst s1. destruct s; simpl. by rewrite <- app_assoc.
Qed.

Lemma handle_vad_event_buffer
    (event : vad_event) (s s' : StreamingSession) (r : result unit) :
  handle_vad_event event s = (s', r) ->
  audio_buffer s' =
    match event with
    | speech_start => audio_buffer s
    | speech_end => []
    end.
Proof.
  destruct event.
  - unfold handle_vad_event, handle_barge_in. unfold_m.
    destruct (tts_in_flight _); simpl; [|by intros [= <- <-]].
    destruct (tts_sequence s); by intros [= <- <-].
  - unfold handle_vad_event. unfold_m.
    set (s1 := set_is_listening false _).
    pose proof (generate_final_transcript_buffer s1) as Hb.
    destruct (generate_final_transcript s1) as [s2 [[]|e]] eqn:H2;
      intros [= <- <-]; done.
Qed.

Lemma for_each_events_buffer
    (events : list vad_event) (s s' : StreamingSession) (r : result unit) :
  for_each events handle_vad_event s = (s', r) ->
  audio_buffer s' =
    if bool_decide (speech_end ∈ events) then [] else audio_buffer s.
Proof.
  revert s. induction events as [|e events IH]; intros s.
  - simpl. unfold ret. by intros [= <- <-].
  - destruct (handle_vad_event_effect e s) as (s1 & m1 & H1 & _).
    rewrite (for_each_cons _ _ _ _ _ H1). intros H.
    rewrite (IH _ H).
    rewrite (handle_vad_event_buffer _ _ _ _ H1).
    destruct e.
    + destruct (decide (speech_end ∈ events)) as [Hin|Hin].
      * rewrite !bool_decide_eq_true_2; [done| |done].
        apply elem_of_cons. by right.
      * rewrite !bool_decide_eq_false_2; [done| |done].
        intros [?|?]%elem_of_cons; done.
    + rewrite (bool_decide_eq_true_2 (speech_end ∈ speech_end :: events))
        by apply list_elem_of_here.
      by destruct (bool_decide _).
Qed.

(** X10: what [handle_audio_input] leaves in the audio buffer.  When the
    chunk decodes and the detector returns its events, the buffer holds
    the bytes it held followed by the bytes of the chunk if no
    [speech_end] is among the events, and it is empty if one is: the
    bytes of a chunk in which speech ends are all dropped with the final
    transcript, also those that follow the end of speech. *)
Theorem handle_audio_input_buffer
    (s : StreamingSession) (message : AudioInputMessage)
    (audio_bytes : list byte) (v' : VoiceActivityDetector)
    (vad_events : list vad_event) :
  b64decode (data message) = Ok audio_bytes ->
  process_chunk audio_bytes "pcm16" (vad s) = (v', Ok vad_events) ->
  audio_buffer (fst (handle_audio_input message s)) =
    if bool_decide (speech_end ∈ vad_events) then []
    else audio_buffer s ++ audio_bytes.
Proof.
  intros Hd Hc.
  pose proof (handle_audio_input_events_run _ _ _ _ _ Hd Hc) as Hev.
  destruct (for_each_events_effect vad_events
              (set_vad v' (set_audio_buffer (audio_buffer s ++ audio_bytes) s)))
    as (s1 & msgs & Hrun & _).
  rewrite Hrun in Hev.
  rewrite (handle_audio_input_after_events _ _ _ Hev).
  rewrite handle_audio_input_partial_run.
  pose proof (for_each_events_buffer _ _ _ _ Hrun) as Hb. simpl in Hb.
  rewrite <- Hb. by destruct (_ && _).
Qed.

(** X11: when the chunk decodes but the detector raises before its loop
    (for pcm16, a chunk of an odd number of bytes; or a frame size that
    is 0 or cannot be read), [handle_audio_input] sends one [Error]
    message with the code ["audio_processing_error"] and returns
    normally; the bytes of the chunk have been added to the audio buffer
    and stay there, and nothing else of the session changes. *)
Theorem handle_audio_input_detector_error
    (s : StreamingSession) (message : AudioInputMessage)
    (audio_bytes : list byte) :
  b64decode (data message) = Ok audio_bytes ->
  is_ok (frombuffer audio_bytes "pcm16") = false
  \/ is_ok (frame_size (config (vad s))) = false
  \/ frame_size (config (vad s)) = Ok 0 ->
  exists e,
    handle_audio_input message s =
      (set_websocket
         (websocket s ++
            [ErrorMessage "audio_processing_error"
               ("Failed to process audio: " ++ str e)%string])
         (set_audio_buffer (audio_buffer s ++ audio_bytes) s),
       Ok tt).
Proof.
  intros Hd Hbad.
  destruct (process_chunk_cases audio_bytes "pcm16" (vad s))
    as [[_ [e He]]|[[Hok (size & Hsize & H0)] _]].
  - exists e. unfold handle_audio_input, handle_audio_input_try,
      handle_audio_input_events. unfold_m.
    rewrite Hd. simpl. rewrite He. by destruct s.
  - rewrite Hsize in Hbad. destruct Hbad as [H|[H|H]]; [congruence|done|congruence].
Qed.

(** X12: the control action [stop_listening].  The detector is reset and
    [is_listening] is false.  If the detector was in the Speech state
    and the buffer was not empty, one final transcript is sent, then
    [Status(connected)], and the buffer is emptied; if not, only
    [Status(connected)] is sent and the buffer is kept as it is. *)
Theorem stop_listening_flushes (s : StreamingSession) (ts : option Z) :
  exists s' flushed,
    handle_control (mkControl stop_listening ts) s = (s', Ok tt)
    /\ vad s' = reset (vad s)
    /\ is_listening s' = false
    /\ websocket s' = websocket s ++ flushed ++ [StatusMessage connected]
    /\ (if vad_is_speaking (vad s)
           && negb (Z.of_nat (length (audio_buffer s)) =? 0)
        then (exists text confidence,
                flushed = [TranscriptMessage text true confidence])
             /\ audio_buffer s' = []
        else flushed = [] /\ audio_buffer s' = audio_buffer s).
Proof.
  unfold handle_control. simpl. unfold_m.
  destruct (vad_is_speaking (vad s)) eqn:Hsp; simpl.
  - rewrite Hsp. rewrite generate_final_transcript_run. simpl.
    destruct (Z.of_nat (length (audio_buffer s)) =? 0) eqn:Hl; simpl.
    + eexists _, []. split; [reflexivity|]. by repeat split.
    + eexists _, [_]. split; [reflexivity|]. simpl.
      repeat split; try done.
      * by rewrite <- app_assoc.
      * by eexists _, _.
  - rewrite Hsp. eexists _, []. split; [reflexivity|]. by repeat split.
Qed.

Lemma handle_vad_event_sends (event : vad_event) (s : StreamingSession) :
  exists s' msgs,
    handle_vad_event event s = (s', Ok tt)
    /\ websocket s' = websocket s ++ msgs
    /\ session_id s' = session_id s
    /\ sequence_counter s' = sequence_counter s
    /\ Forall (fun m => is_error_message m = false) msgs.
Proof.
  unfold handle_vad_event, handle_barge_in. unfold_m.
  destruct event.
  - destruct (tts_in_flight _); simpl;
      [destruct (tts_sequence s)|];
      eexists _, _; (split; [reflexivity|]); simpl;
      rewrite <- ?app_assoc; (split; [reflexivity|]);
      repeat split; repeat constructor.
  - rewrite generate_final_transcript_run.
    destruct (_ =? 0); simpl;
      eexists _, _; (split; [reflexivity|]); simpl;
      rewrite <- ?app_assoc; (split; [reflexivity|]);
      repeat split; repeat constructor.
Qed.

Lemma for_each_events_sends (events : list vad_event) (s : StreamingSession) :
  exists s' msgs,
    for_each events handle_vad_event s = (s', Ok tt)
    /\ websocket s' = websocket s ++ msgs
    /\ session_id s' = session_id s
    /\ sequence_counter s' = sequence_counter s
    /\ Forall (fun m => is_error_message m = false) msgs.
Proof.
  revert s. induction events as [|e events IH]; intros s.
  - exists s, []. simpl. rewrite app_nil_r. by repeat split.
  - destruct (handle_vad_event_sends e s)
      as (s1 & m1 & H1 & Hw1 & Hi1 & Hc1 & He1).
    destruct (IH s1) as (s2 & m2 & H2 & Hw2 & Hi2 & Hc2 & He2).
    exists s2, (m1 ++ m2). rewrite (for_each_cons _ _ _ _ _ H1).
    split; [done|]. rewrite Hw2, Hw1, <- app_assoc.
    repeat split; try congruence. by apply Forall_app.
Qed.

Lemma handle_audio_input_sends
    (message : AudioInputMessage) (s : StreamingSession) :
  exists s' msgs,
    handle_audio_input message s = (s', Ok tt)
    /\ websocket s' = websocket s ++ msgs
    /\ session_id s' = session_id s
    /\ sequence_counter s' = sequence_counter s
    /\ (is_ok (b64decode (data message)) = true ->
        is_ok (snd (process_chunk
                      match b64decode (data message) with
                      | Ok audio_bytes => audio_bytes
                      | Raise _ => []
                      end "pcm16" (vad s))) = true ->
        Forall (fun m => is_error_message m = false) msgs).
Proof.
  unfold handle_audio_input, handle_audio_input_try,
    handle_audio_input_events, handle_audio_input_partial,
    generate_partial_transcript. unfold_m.
  destruct (b64decode (data message)) as [audio_bytes|e]; simpl.
  - destruct (process_chunk audio_bytes "pcm16" (vad s)) as [v' [events|e]];
      simpl.
    + destruct (for_each_events_sends events
                  (set_vad v'
                     (set_audio_buffer (audio_buffer s ++ audio_bytes) s)))
        as (s1 & m1 & H1 & Hw1 & Hi1 & Hc1 & He1).
      rewrite H1. simpl in *.
      destruct (_ && _).
      * eexists _, (m1 ++ [_]). split; [reflexivity|]. simpl.
        rewrite Hw1, <- app_assoc. repeat split; try done.
        intros _ _. apply Forall_app. split; [done|]. by repeat constructor.
      * exists s1, m1. by repeat split.
    + eexists _, [_]. split; [reflexivity|]. by repeat split.
  - eexists _, [_]. split; [reflexivity|]. by repeat split.
Qed.

(** X13: each operation on a session ([start_tts_playback],
    [end_tts_playback], [handle_barge_in], [handle_control],
    [handle_audio_input]) returns normally, whatever the message holds;
    it adds its messages after the ones already sent and alters none of
    them, and it changes neither the id of the session nor its sequence
    counter. *)
Theorem session_step_appends (op : session_op) (s : StreamingSession) :
  exists s' msgs,
    session_step op s = (s', Ok tt)
    /\ websocket s' = websocket s ++ msgs
    /\ session_id s' = session_id s
    /\ sequence_counter s' = sequence_counter s.
Proof.
  destruct op as [sequence| | |m|m]; simpl.
  - eexists _, [_]. by repeat split.
  - eexists _, [_]. by repeat split.
  - unfold handle_barge_in. unfold_m. destruct (tts_sequence s).
    + eexists _, [_; _]. split; [reflexivity|]. simpl.
      rewrite <- app_assoc. by repeat split.
    + exists s, []. rewrite app_nil_r. by repeat split.
  - unfold handle_control, handle_barge_in. destruct (action m); unfold_m.
    + eexists _, [_]. by repeat split.
    + destruct (vad_is_speaking _); simpl.
      * rewrite generate_final_transcript_run.
        destruct (_ =? 0); simpl.
        -- eexists _, [_]. by repeat split.
        -- eexists _, [_; _]. split; [reflexivity|]. simpl.
           rewrite <- app_assoc. by repeat split.
      * eexists _, [_]. by repeat split.
    + destruct (tts_in_flight s); [destruct (tts_sequence s)|].
      * eexists _, [_; _]. split; [reflexivity|]. simpl.
        rewrite <- app_assoc. by repeat split.
      * exists s, []. rewrite app_nil_r. by repeat split.
      * exists s, []. rewrite app_nil_r. by repeat split.
  - destruct (handle_audio_input_sends m s)
      as (s' & msgs & H & Hw & Hi & Hc & _).
    by exists s', msgs.
Qed.


(** X15: the formats that [validate_audio_format] accepts are the
    formats that [process_chunk] can read: a format is accepted with
    some sample rate and number of channels exactly when
    [np.frombuffer] makes an array of the empty buffer for it, and then
    it is accepted with every sample rate in 8000, 16000, 22050, 44100,
    48000 and with 1 or 2 channels, and with no other. *)
Theorem validate_audio_format_matches_frombuffer (format : string) :
  ((exists sample_rate channels,
      validate_audio_format sample_rate channels format = true)
   <-> is_ok (frombuffer [] format) = true)
  /\ (forall sample_rate channels,
        validate_audio_format sample_rate channels format = true
        <-> sample_rate ∈ [8000; 16000; 22050; 44100; 48000]
            /\ channels ∈ [1; 2]
            /\ is_ok (frombuffer [] format) = true).
Proof.
  assert (Hfmt : bool_decide (format ∈ ["pcm16"; "pcm8"; "float32"])
                 = is_ok (frombuffer [] format)).
  { unfold frombuffer.
    destruct (String.eqb_spec format "pcm16") as [->|H1]; [done|].
    destruct (String.eqb_spec format "pcm8") as [->|H2]; [done|].
    destruct (String.eqb_spec format "float32") as [->|H3]; [done|].
    apply bool_decide_eq_false_2.
    rewrite !elem_of_cons, elem_of_nil. tauto. }
  assert (Hall : forall sample_rate channels,
            validate_audio_format sample_rate channels format = true
            <-> sample_rate ∈ [8000; 16000; 22050; 44100; 48000]
                /\ channels ∈ [1; 2]
                /\ is_ok (frombuffer [] format) = true).
  { intros sample_rate channels. unfold validate_audio_format.
    cbv zeta. rewrite Hfmt, !andb_true_iff, !bool_decide_eq_true. tauto. }
  split; [|exact Hall]. split.
  - intros (sample_rate & channels & H). by apply Hall in H as (_ & _ & H).
  - intros H. exists 16000, 1. apply Hall.
    repeat split; [| |done]; rewrite !elem_of_cons; auto.
Qed.

(** * Further properties of the session manager *)

Lemma manager_ok_init : manager_ok WebSocketManager_init.
Proof.
  split; [done|]. intros id session H. simpl in H.
  by rewrite lookup_empty in H.
Qed.

Lemma create_session_fresh (ws : list ServerMessage) (m : WebSocketManager) :
  manager_ok m ->
  sessions m !! id_of_counter (session_counter m + 1) = None.
Proof.
  intros [H0 Hok].
  destruct (sessions m !! id_of_counter (session_counter m + 1))
    as [session|] eqn:H; [|done].
  destruct (Hok _ _ H) as (_ & n & Hn & Hid).
  apply id_of_counter_inj in Hid. lia.
Qed.

Lemma create_session_ok (ws : list ServerMessage) (m : WebSocketManager) :
  manager_ok m -> manager_ok (fst (create_session ws m)).
Proof.
  intros [H0 Hok]. split; simpl; [lia|].
  intros id session. fold (id_of_counter (session_counter m + 1)).
  destruct (decide (id_of_counter (session_counter m + 1) = id)) as [<-|Hne].
  - rewrite lookup_insert_eq. intros [= <-]. split; [done|].
    exists (session_counter m + 1). split; [lia|done].
  - rewrite lookup_insert_ne by done. intros H.
    destruct (Hok _ _ H) as (Hid & n & Hn & Hn').
    split; [done|]. exists n. split; [lia|done].
Qed.

Lemma remove_session_ok (id : string) (m : WebSocketManager) :
  manager_ok m -> manager_ok (remove_session id m).
Proof.
  intros [H0 Hok]. unfold remove_session.
  destruct (sessions m !! id) eqn:Hid; [|by split].
  split; [done|]. simpl. intros id' session.
  destruct (decide (id = id')) as [<-|Hne].
  - by rewrite lookup_delete_eq.
  - rewrite lookup_delete_ne by done. apply Hok.
Qed.

(** X16: the manager keeps its map in order.  A new manager is in order,
    and every sequence of [create_session] and [remove_session] calls
    takes a manager in order to a manager in order: the counter is not
    negative, every key of the map is ["session-<n>"] for a counter [n]
    between 1 and the current one, and the session stored under a key
    has that key as its [session_id]. *)
Theorem manager_stays_ok :
  manager_ok WebSocketManager_init
  /\ (forall calls m, manager_ok m -> manager_ok (run_calls calls m)).
Proof.
  split; [apply manager_ok_init|].
  induction calls as [|[ws|id] calls IH]; intros m Hok; simpl.
  - done.
  - apply IH. by apply (create_session_ok ws).
  - apply IH. by apply remove_session_ok.
Qed.

(** X17: [create_session] on a manager in order.  The id of the new
    session was not in use; the session is the new
    [StreamingSession(websocket, "session-<counter + 1>")];
    [get_session] of its id returns it; the number of sessions goes up by
    one; and [get_session] of every other id returns what it returned
    before. *)
Theorem create_session_registers
    (ws : list ServerMessage) (m : WebSocketManager) :
  manager_ok m ->
  get_session (session_id (snd (create_session ws m))) m = None
  /\ snd (create_session ws m)
     = StreamingSession_init ws (id_of_counter (session_counter m + 1))
  /\ get_session (session_id (snd (create_session ws m)))
       (fst (create_session ws m))
     = Some (snd (create_session ws m))
  /\ get_session_count (fst (create_session ws m)) = get_session_count m + 1
  /\ (forall id, id <> session_id (snd (create_session ws m)) ->
        get_session id (fst (create_session ws m)) = get_session id m).
Proof.
  intros Hok. pose proof (create_session_fresh ws m Hok) as Hfresh.
  unfold get_session, get_session_count. simpl.
  fold (id_of_counter (session_counter m + 1)).
  split; [done|]. split; [done|]. split; [by rewrite lookup_insert_eq|].
  split.
  - rewrite map_size_insert_None by done. lia.
  - intros id Hne. by rewrite lookup_insert_ne.
Qed.

(** X18: [remove_session].  After it [get_session] of the removed id
    returns nothing and [get_session] of every other id returns what it
    returned before; the counter is not touched, so that the id is not
    issued again; an id that is not in the map leaves the manager as it
    was; and an id that is in the map takes the number of sessions down
    by one. *)
Theorem remove_session_forgets (id : string) (m : WebSocketManager) :
  get_session id (remove_session id m) = None
  /\ (forall id', id' <> id ->
        get_session id' (remove_session id m) = get_session id' m)
  /\ session_counter (remove_session id m) = session_counter m
  /\ (get_session id m = None -> remove_session id m = m)
  /\ (is_Some (get_session id m) ->
      get_session_count (remove_session id m) = get_session_count m - 1).
Proof.
  unfold get_session, get_session_count, remove_session.
  destruct (sessions m !! id) as [session|] eqn:Hid; simpl.
  - split; [by rewrite lookup_delete_eq|].
    split; [intros id' Hne; by rewrite lookup_delete_ne|].
    split; [done|]. split; [done|]. intros _.
    rewrite map_size_delete_Some by (by eexists).
    assert (size (sessions m) <> 0%nat).
    { intros H0. apply map_size_empty_inv in H0. rewrite H0 in Hid.
      by rewrite lookup_empty in Hid. }
    lia.
  - split; [done|]. split; [done|]. split; [done|]. split; [done|].
    by intros [x Hx].
Qed.

(** X19: a connection that comes and goes.  On a manager in order,
    [create_session] followed by [remove_session] of the id of the new
    session gives back the map of sessions as it was before, with the
    counter one higher. *)
Theorem create_then_remove_restores
    (ws : list ServerMessage) (m : WebSocketManager) :
  manager_ok m ->
  sessions (remove_session (session_id (snd (create_session ws m)))
              (fst (create_session ws m)))
  = sessions m
  /\ session_counter
       (remove_session (session_id (snd (create_session ws m)))
          (fst (create_session ws m)))
     = session_counter m + 1.
Proof.
  intros Hok. pose proof (create_session_fresh ws m Hok) as Hfresh.
  unfold remove_session. simpl.
  fold (id_of_counter (session_counter m + 1)).
  rewrite lookup_insert_eq. simpl. split; [|done].
  by apply delete_insert_id.
Qed.

(** * The detector over whole utterances *)

(** X20: [process_frame] raises exactly when the frame makes it read a
    property of the configuration that cannot be computed: a frame above
    the threshold in the Silence state when [speech_pad_frames] raises,
    or a frame at or below it in the Speech state when [silence_frames]
    raises.  The exception is [ZeroDivisionError] if [frame_duration_ms]
    is 0 and [OverflowError] if not (the quotient is too large for a
    float), and by then the energy is in the history and the counter has
    gone up by one. *)
Theorem process_frame_raises_iff
    (frame : ndarray) (v : VoiceActivityDetector) :
  (is_ok (snd (process_frame frame v)) = false
   <-> state v = Silence /\ is_speech (config v) frame = true
       /\ is_ok (speech_pad_frames (config v)) = false
       \/ state v = Speech /\ is_speech (config v) frame = false
          /\ is_ok (config_silence_frames (config v)) = false)
  /\ (is_ok (snd (process_frame frame v)) = false ->
      (frame_duration_ms (config v) = 0
       /\ snd (process_frame frame v)
          = Raise (ZeroDivisionError "division by zero")
       \/ frame_duration_ms (config v) <> 0
          /\ snd (process_frame frame v)
             = Raise (OverflowError
                        "integer division result too large for a float"))
      /\ energy_history (fst (process_frame frame v))
         = energy_history (push_history (calculate_energy frame) v)
      /\ speech_frames (fst (process_frame frame v))
         + silence_frames (fst (process_frame frame v))
         = speech_frames v + silence_frames v + 1).
Proof.
  unfold process_frame, is_speech. unfold_m. simpl.
  destruct (state v) eqn:Hst;
    destruct (float_gt _ _) eqn:Hgt; simpl; unfold_m; simpl.
  - destruct (speech_pad_frames (config v)) as [n|e] eqn:Hn; simpl.
    + destruct (_ <=? _); simpl;
        (split; [split; [done|intros [(_ & _ & ?)|(? & _)]; done]|done]).
    + split; [split; [intros _; by left|done]|]. intros _.
      apply int_of_truediv_raises in Hn as [[H0 ->]|[H0 ->]];
        (split; [first [by left | by right]|]); split; simpl; lia || done.
  - split; [split; [done|intros [(_ & ? & _)|(? & _)]; done]|done].
  - split; [split; [done|intros [(? & _)|(_ & ? & _)]; done]|done].
  - destruct (config_silence_frames (config v)) as [n|e] eqn:Hn; simpl.
    + destruct (_ <=? _); simpl;
        (split; [split; [done|intros [(? & _)|(_ & _ & ?)]; done]|done]).
    + split; [split; [intros _; by right|done]|]. intros _.
      apply int_of_truediv_raises in Hn as [[H0 ->]|[H0 ->]];
        (split; [first [by left | by right]|]); split; simpl; lia || done.
Qed.

Lemma process_frame_counters
    (frame : ndarray) (v v' : VoiceActivityDetector)
    (r : result (option vad_event)) (N M : Z) :
  speech_pad_frames (config v) = Ok N ->
  config_silence_frames (config v) = Ok M ->
  1 <= N -> 1 <= M ->
  counters_ok N M v ->
  process_frame frame v = (v', r) ->
  counters_ok N M v'.
Proof.
  intros HN HM H1N H1M (Hsf & Hsl & Hst).
  unfold process_frame. unfold_m. simpl. rewrite HN, HM.
  unfold counters_ok.
  destruct (state v) eqn:Hs; destruct (float_gt _ _); simpl; unfold_m; simpl.
  - destruct (Z.leb_spec N (speech_frames v + 1));
      intros [= <- <-]; simpl; rewrite ?Hs; lia.
  - intros [= <- <-]; simpl; rewrite ?Hs; lia.
  - intros [= <- <-]; simpl; rewrite ?Hs; lia.
  - destruct (Z.leb_spec M (silence_frames v + 1));
      intros [= <- <-]; simpl; rewrite ?Hs; lia.
Qed.

(** X21: the counters of the hysteresis stay in bounds.  With
    [speech_pad_frames = N >= 1] and [silence_frames = M >= 1], a
    detector whose counters are not negative, with [speech_frames < N]
    in the Silence state and [silence_frames < M] in the Speech state,
    is again such a detector after any sequence of frames; a new
    detector and a detector after [reset] are such detectors. *)
Theorem counters_stay_in_bounds
    (frames : list ndarray) (v v' : VoiceActivityDetector)
    (r : result (list vad_event)) (N M : Z) :
  speech_pad_frames (config v) = Ok N ->
  config_silence_frames (config v) = Ok M ->
  1 <= N -> 1 <= M ->
  counters_ok N M (VoiceActivityDetector_init (config v))
  /\ counters_ok N M (reset v)
  /\ (counters_ok N M v ->
      process_frames frames v = (v', r) ->
      counters_ok N M v').
Proof.
  intros HN HM H1N H1M.
  split; [unfold counters_ok; simpl; lia|].
  split; [unfold counters_ok; simpl; lia|].
  revert v v' r HN HM. induction frames as [|f frames IH];
    intros v v' r HN HM Hok.
  - simpl. unfold ret. by intros [= <- <-].
  - cbn [process_frames]. unfold bind, ret.
    destruct (process_frame f v) as [v1 r1] eqn:Hf.
    pose proof (process_frame_counters _ _ _ _ _ _ HN HM H1N H1M Hok Hf)
      as Hok1.
    apply process_frame_step in Hf as (Hc & _).
    destruct r1 as [ev|e]; [|by intros [= <- <-]].
    destruct (process_frames frames v1) as [v2 r2] eqn:Hfs.
    rewrite <- Hc in HN, HM.
    specialize (IH _ _ _ HN HM Hok1 Hfs).
    destruct r2; by intros [= <- <-].
Qed.

Lemma process_frames_loud_run
    (run : list ndarray) (v : VoiceActivityDetector) (N : Z) :
  state v = Silence ->
  speech_frames v = 0 ->
  speech_pad_frames (config v) = Ok N ->
  Forall (fun f => is_speech (config v) f = true) run ->
  1 <= N ->
  Z.of_nat (length run) = N ->
  exists v',
    process_frames run v = (v', Ok [speech_start])
    /\ state v' = Speech
    /\ silence_frames v' = 0
    /\ config v' = config v.
Proof.
  intros Hst H0 HN Hall H1 Hlen.
  destruct run as [|last run0 _] using rev_ind; [simpl in Hlen; lia|].
  rewrite length_app, length_cons in Hlen. simpl in Hlen.
  apply Forall_app in Hall as [Hbefore Hlast].
  apply Forall_cons in Hlast as [Hlast _].
  destruct (process_frames_counting run0 v N)
    as (vm & Hrun & Hstm & Hcm & Hnm); [done..|lia|].
  rewrite <- Hcm in Hlast, HN.
  pose proof (process_frame_silence_loud vm last N Hstm Hlast HN) as Hstep.
  cbv zeta in Hstep.
  rewrite (proj2 (Z.leb_le _ _)) in Hstep by lia.
  eexists. rewrite process_frames_app, Hrun. cbn [process_frames].
  unfold bind, ret. rewrite Hstep. by repeat split.
Qed.

Lemma process_frames_quiet_run
    (run : list ndarray) (v : VoiceActivityDetector) (M : Z) :
  state v = Speech ->
  silence_frames v = 0 ->
  config_silence_frames (config v) = Ok M ->
  Forall (fun f => is_speech (config v) f = false) run ->
  1 <= M ->
  Z.of_nat (length run) = M ->
  exists v',
    process_frames run v = (v', Ok [speech_end])
    /\ state v' = Silence
    /\ speech_frames v' = 0
    /\ config v' = config v.
Proof.
  intros Hst H0 HM Hall H1 Hlen.
  destruct run as [|last run0 _] using rev_ind; [simpl in Hlen; lia|].
  rewrite length_app, length_cons in Hlen. simpl in Hlen.
  apply Forall_app in Hall as [Hbefore Hlast].
  apply Forall_cons in Hlast as [Hlast _].
  destruct (process_frames_counting_silence run0 v M)
    as (vm & Hrun & Hstm & Hcm & Hnm); [done..|lia|].
  rewrite <- Hcm in Hlast, HM.
  pose proof (process_frame_speech_quiet vm last M Hstm Hlast HM) as Hstep.
  cbv zeta in Hstep.
  rewrite (proj2 (Z.leb_le _ _)) in Hstep by lia.
  eexists. rewrite process_frames_app, Hrun. cbn [process_frames].
  unfold bind, ret. rewrite Hstep. by repeat split.
Qed.

(** X22: one utterance.  A detector in the Silence state with
    [speech_frames = 0], with [speech_pad_frames = N >= 1] and
    [silence_frames = M >= 1], receives [N] frames above the threshold
    and then [M] frames at or below it: it returns [speech_start] and
    [speech_end], in that order and nothing else, and it is back in the
    Silence state with [speech_frames = 0], ready for the next
    utterance. *)
Theorem utterance_starts_and_ends
    (v : VoiceActivityDetector) (N M : Z) (loud quiet : list ndarray) :
  state v = Silence ->
  speech_frames v = 0 ->
  speech_pad_frames (config v) = Ok N ->
  config_silence_frames (config v) = Ok M ->
  1 <= N -> 1 <= M ->
  Forall (fun f => is_speech (config v) f = true) loud ->
  Forall (fun f => is_speech (config v) f = false) quiet ->
  Z.of_nat (length loud) = N ->
  Z.of_nat (length quiet) = M ->
  exists v',
    process_frames (loud ++ quiet) v = (v', Ok [speech_start; speech_end])
    /\ state v' = Silence
    /\ speech_frames v' = 0.
Proof.
  intros Hst H0 HN HM H1N H1M Hloud Hquiet HlN HlM.
  destruct (process_frames_loud_run loud v N)
    as (v1 & Hrun1 & Hst1 & Hsl1 & Hc1); [done..|].
  rewrite <- Hc1 in HM, Hquiet.
  destruct (process_frames_quiet_run quiet v1 M)
    as (v2 & Hrun2 & Hst2 & Hsf2 & _); [done..|].
  exists v2. rewrite process_frames_app, Hrun1, Hrun2. by repeat split.
Qed.

End Engine.

(** * The properties on the reference runtime *)

Section OnReference.
#[local] Existing Instance Reference.runtime.

(** a fresh session, as [create_session] makes the first one *)
Definition fresh_session : StreamingSession :=
  StreamingSession_init [] "session-1".

(** a session in a synthesis turn (sequence 7) whose detector has counted
    nine loud frames *)
Definition speaking_session : StreamingSession :=
  {| websocket := []; session_id := "session-1";
     vad := set_speech_frames 9 (VoiceActivityDetector_init VADConfig_default);
     is_listening := false; is_speaking := true; audio_buffer := [];
     sequence_counter := 0; tts_sequence := Some 7 |}.

(** the two bytes 00 40: one pcm16 sample at half of full scale *)
Definition loud_sample : AudioInputMessage :=
  {| data := "AEA="; timestamp := 0; sequence := 1 |}.

(** C5: 480 pcm8 samples of amplitude 1, that is 1/128 of full scale.
    [calculate_energy] returns 1.0 for them, not 1/128, and the default
    detector takes the frame for speech; ten such frames through
    [process_chunk(.., "pcm8")] return [speech_start].  The pcm16 frame of
    the same loudness (amplitude 256) has the energy 0.0078125 = 1/128
    and is not speech.  An empty frame has the energy 0.0 and is not
    speech. *)
Theorem pcm8_energy_is_not_normalized :
  calculate_energy (Int8Array (replicate 480 1)) = float_lit 1 0
  /\ is_speech VADConfig_default (Int8Array (replicate 480 1)) = true
  /\ snd (process_chunk (replicate 4800 x01) "pcm8"
            (VoiceActivityDetector_init VADConfig_default))
     = Ok [speech_start]
  /\ calculate_energy (Int16Array (replicate 480 256)) = float_lit 78125 (-7)
  /\ is_speech VADConfig_default (Int16Array (replicate 480 256)) = false
  /\ calculate_energy (Int8Array []) = float_lit 0 0
  /\ is_speech VADConfig_default (Int8Array []) = false.
Proof. vm_compute. by repeat split. Qed.

(** C6, as the specification has it, fails.  The string ["A"] is not
    valid base64 and [b64decode] raises on it: the one message that a
    fresh session sends is not an [Error] with the code
    ["AudioDecodeError"].  The string ["!!!!"] is not valid base64
    either, [b64decode] skips its four characters and returns no byte,
    and the session sends no message at all. *)
Lemma undecodable_audio_code_is_not_AudioDecodeError :
  (is_ok (b64decode "A") = false
   /\ ~ (exists text,
           websocket
             (fst (handle_audio_input
                     {| data := "A"; timestamp := 0; sequence := 1 |}
                     fresh_session))
           = websocket fresh_session
               ++ [ErrorMessage "AudioDecodeError" text]))
  /\ (b64decode "!!!!" = Ok []
      /\ websocket
           (fst (handle_audio_input
                   {| data := "!!!!"; timestamp := 0; sequence := 1 |}
                   fresh_session))
         = websocket fresh_session).
Proof.
  split; split.
  - by vm_compute.
  - intros [text H]. vm_compute in H. discriminate H.
  - by vm_compute.
  - by vm_compute.
Qed.

(** C1 on [speaking_session] and [loud_sample]: the tenth loud frame
    starts the speech and cancels the turn 7. *)
Lemma speech_start_cancels_tts_witness :
  is_speaking speaking_session = true
  /\ tts_sequence speaking_session = Some 7
  /\ exists s' before energy after,
       handle_audio_input loud_sample speaking_session = (s', Ok tt)
       /\ websocket s' =
            websocket speaking_session ++ before ++
              VADEventMessage speech_start energy :: BargeInMessage 7
                :: StatusMessage listening :: after
       /\ Forall (fun m => is_speech_start_message m = false) before
       /\ tts_sequence s' = None
       /\ is_speaking s' = false.
Proof.
  split; [reflexivity|]. split; [reflexivity|].
  eapply (speech_start_cancels_tts speaking_session loud_sample 7).
  - reflexivity.
  - reflexivity.
  - vm_compute. reflexivity.
  - vm_compute. reflexivity.
  - apply list_elem_of_here.
Defined.

(** C2 on a fresh session. *)
Lemma barge_in_unset_is_noop_witness :
  tts_sequence fresh_session = None
  /\ handle_barge_in fresh_session = (fresh_session, Ok tt).
Proof.
  split; [reflexivity|].
  apply (barge_in_unset_is_noop fresh_session). reflexivity.
Defined.






(** C4 on the default detector, where [N] is 10, and ten frames of one
    sample at half of full scale. *)
Lemma speech_start_on_nth_frame_witness :
  state (VoiceActivityDetector_init VADConfig_default) = Silence
  /\ speech_pad_frames VADConfig_default = Ok 10
  /\ exists v' vm before last,
       replicate 10 (Int16Array [16384]) = before ++ [last]
       /\ process_frames before (VoiceActivityDetector_init VADConfig_default)
          = (vm, Ok [])
       /\ process_frame last vm = (v', Ok (Some speech_start))
       /\ process_frames (replicate 10 (Int16Array [16384]))
            (VoiceActivityDetector_init VADConfig_default)
          = (v', Ok [speech_start])
       /\ state v' = Speech.
Proof.
  split; [reflexivity|]. split; [reflexivity|].
  destruct (speech_start_on_nth_frame
              (VoiceActivityDetector_init VADConfig_default) 10
              (replicate 10 (Int16Array [16384]))) as [_ Hexact].
  - reflexivity.
  - reflexivity.
  - reflexivity.
  - lia.
  - repeat (constructor; [vm_compute; reflexivity|]). constructor.
  - apply Hexact. reflexivity.
Defined.

(** C6 on a fresh session and the string ["A"]. *)
Lemma undecodable_audio_reports_error_witness :
  exists e,
    b64decode "A" = Raise e
    /\ handle_audio_input {| data := "A"; timestamp := 0; sequence := 1 |}
         fresh_session
       = (set_websocket
            [ErrorMessage "audio_processing_error"
               ("Failed to process audio: " ++ str e)%string] fresh_session,
          Ok tt).
Proof.
  eexists. split; [vm_compute; reflexivity|].
  apply (undecodable_audio_reports_error fresh_session
           {| data := "A"; timestamp := 0; sequence := 1 |}).
  vm_compute. reflexivity.
Defined.

(** a session in the middle of an utterance, with 16000 bytes buffered *)
Definition listening_session : StreamingSession :=
  {| websocket := []; session_id := "session-1";
     vad := set_state Speech (VoiceActivityDetector_init VADConfig_default);
     is_listening := true; is_speaking := false;
     audio_buffer := replicate 16000 x00;
     sequence_counter := 0; tts_sequence := None |}.

(** C7 on [listening_session] and [loud_sample]: the buffer reaches 16002
    bytes, the detector is in the Speech state, one partial transcript
    goes out and the buffer stays. *)
Lemma partial_transcript_rule_witness :
  snd (handle_audio_input_events loud_sample listening_session) = Ok tt
  /\ exists s' text confidence,
       handle_audio_input loud_sample listening_session = (s', Ok tt)
       /\ websocket s' = [TranscriptMessage text false confidence]
       /\ Z.of_nat (length (audio_buffer s')) = 16002.
Proof.
  split; [vm_compute; reflexivity|].
  destruct (partial_transcript_rule loud_sample listening_session
              (fst (handle_audio_input_events loud_sample listening_session)))
    as (s' & text & confidence & msgs & Hrun & Hs' & Hbuf & _).
  - vm_compute. reflexivity.
  - exists s', text, confidence. split; [exact Hrun|].
    rewrite Hs'. split; vm_compute; reflexivity.
Defined.

(** a detector with ten energies of 0.5 in its history *)
Definition steady_history : VoiceActivityDetector :=
  set_energy_history (replicate 10 (float_lit 5 (-1)))
    (VoiceActivityDetector_init VADConfig_default).

(** C9 on [steady_history] and the 75th percentile: the threshold goes
    from 0.01 to 0.5. *)
Lemma adapt_threshold_rule_witness :
  10 <= Z.of_nat (length (energy_history steady_history))
  /\ np_percentile (energy_history steady_history) (float_lit 75 0)
     = Ok (float_lit 5 (-1))
  /\ exists v',
       adapt_threshold (float_lit 75 0) steady_history = (v', Ok tt)
       /\ energy_threshold (config v') = float_lit 5 (-1).
Proof.
  split; [vm_compute; discriminate|]. split; [vm_compute; reflexivity|].
  destruct (proj1 (proj2 (adapt_threshold_rule steady_history (float_lit 75 0))))
    with (new := float_lit 5 (-1)) as (v' & Hrun & Hgt & _).
  - vm_compute. discriminate.
  - vm_compute. reflexivity.
  - exists v'. split; [exact Hrun|]. apply Hgt. vm_compute. reflexivity.
Defined.

(** C10 on a fresh session and the start of the turn 7. *)
Lemma speaking_iff_tts_invariant_witness :
  speaking_iff_tts fresh_session
  /\ speaking_iff_tts (fst (session_step (OpStartTts 7) fresh_session)).
Proof.
  split.
  - apply (proj1 speaking_iff_tts_invariant).
  - apply (proj2 speaking_iff_tts_invariant).
    apply (proj1 speaking_iff_tts_invariant).
Defined.


(** ** Witnesses of the further properties *)

(** the manager of a process that starts *)
Definition new_manager : @WebSocketManager spec_float := WebSocketManager_init.

(** a detector in the middle of an utterance *)
Definition speaking_detector : VoiceActivityDetector :=
  set_state Speech (VoiceActivityDetector_init VADConfig_default).

(** a session one quiet frame away from the end of an utterance, with two
    bytes buffered; and a message of two zero bytes *)
Definition ending_session : StreamingSession :=
  {| websocket := []; session_id := "session-1";
     vad := set_silence_frames 22 speaking_detector;
     is_listening := true; is_speaking := false;
     audio_buffer := [x01; x02];
     sequence_counter := 0; tts_sequence := None |}.

Definition quiet_sample : AudioInputMessage :=
  {| data := "AAA="; timestamp := 0; sequence := 2 |}.

(** a message of one byte, which is no whole pcm16 sample *)
Definition odd_sample : AudioInputMessage :=
  {| data := "AA=="; timestamp := 0; sequence := 3 |}.

(** a detector whose [speech_pad_ms / frame_duration_ms] is too large for
    a float *)
Definition huge_pad : VoiceActivityDetector :=
  VoiceActivityDetector_init
    {| energy_threshold := float_lit 1 (-2); speech_pad_ms := 10 ^ 400;
       silence_duration_ms := 700; sample_rate := 16000;
       frame_duration_ms := 30 |}.

(** X1 on the default configuration, where [M] is 23, and 23 frames of
    silence. *)
Lemma speech_end_on_mth_frame_witness :
  state speaking_detector = Speech
  /\ config_silence_frames (config speaking_detector) = Ok 23
  /\ exists v' vm before last,
       replicate 23 (Int16Array [0]) = before ++ [last]
       /\ process_frames before speaking_detector = (vm, Ok [])
       /\ process_frame last vm = (v', Ok (Some speech_end))
       /\ process_frames (replicate 23 (Int16Array [0])) speaking_detector
          = (v', Ok [speech_end])
       /\ state v' = Silence
       /\ speech_frames v' = 0.
Proof.
  split; [reflexivity|]. split; [reflexivity|].
  destruct (speech_end_on_mth_frame speaking_detector 23
              (replicate 23 (Int16Array [0]))) as [_ Hexact].
  - reflexivity.
  - reflexivity.
  - reflexivity.
  - lia.
  - repeat (constructor; [vm_compute; reflexivity|]). constructor.
  - apply Hexact. reflexivity.
Defined.

(** X2 on the tenth loud frame of a run. *)
Lemma process_chunk_events_alternate_witness :
  snd (process_chunk [x00; x40] "pcm16" (vad speaking_session))
  = Ok [speech_start]
  /\ alternates (state (vad speaking_session)) [speech_start]
     = Some (state (fst (process_chunk [x00; x40] "pcm16"
                           (vad speaking_session)))).
Proof.
  split; [vm_compute; reflexivity|].
  apply (process_chunk_events_alternate [x00; x40] "pcm16").
  vm_compute. reflexivity.
Defined.

(** X3 on a new detector and one frame. *)
Lemma process_chunk_history_bounded_witness :
  Z.of_nat (length (energy_history
                      (VoiceActivityDetector_init VADConfig_default)))
  <= 100
  /\ Z.of_nat (length (energy_history
                         (fst (process_chunk [x00; x40] "pcm16"
                                 (VoiceActivityDetector_init
                                    VADConfig_default)))))
     <= 100.
Proof.
  split; [vm_compute; discriminate|].
  pose proof (process_chunk_history_bounded [x00; x40] "pcm16"
                (VoiceActivityDetector_init VADConfig_default)
                (fst (process_chunk [x00; x40] "pcm16"
                        (VoiceActivityDetector_init VADConfig_default)))
                (snd (process_chunk [x00; x40] "pcm16"
                        (VoiceActivityDetector_init VADConfig_default))))
    as H.
  destruct H as (H & Hm & _).
  - by destruct (process_chunk _ _ _).
  - vm_compute. discriminate.
  - rewrite Hm in H. exact H.
Defined.


(** X6 on the detector of [speaking_session]. *)
Lemma reset_is_new_detector_witness :
  max_history_size (vad speaking_session) = 100
  /\ reset (vad speaking_session)
     = VoiceActivityDetector_init (config (vad speaking_session)).
Proof.
  split; [reflexivity|].
  destruct (reset_is_new_detector (vad speaking_session))
    as (_ & _ & _ & _ & Hnew).
  apply Hnew. reflexivity.
Defined.

(** X7 on a fresh session, whose buffer is empty. *)
Lemma generate_final_transcript_once_witness :
  audio_buffer fresh_session = []
  /\ generate_final_transcript fresh_session = (fresh_session, Ok tt).
Proof.
  split; [reflexivity|].
  destruct (generate_final_transcript_once fresh_session) as (_ & Hempty & _).
  apply Hempty. reflexivity.
Defined.

(** X10 on [ending_session] and [quiet_sample]: the 23rd quiet frame ends
    the speech and the four bytes are gone. *)
Lemma handle_audio_input_buffer_witness :
  b64decode (data quiet_sample) = Ok [x00; x00]
  /\ snd (process_chunk [x00; x00] "pcm16" (vad ending_session))
     = Ok [speech_end]
  /\ audio_buffer (fst (handle_audio_input quiet_sample ending_session)) = [].
Proof.
  split; [vm_compute; reflexivity|]. split; [vm_compute; reflexivity|].
  rewrite (handle_audio_input_buffer ending_session quiet_sample [x00; x00]
             (fst (process_chunk [x00; x00] "pcm16" (vad ending_session)))
             [speech_end]).
  - reflexivity.
  - vm_compute. reflexivity.
  - vm_compute. reflexivity.
Defined.

(** X11 on a fresh session and [odd_sample]: the byte stays in the
    buffer. *)
Lemma handle_audio_input_detector_error_witness :
  b64decode (data odd_sample) = Ok [x00]
  /\ is_ok (frombuffer [x00] "pcm16") = false
  /\ exists e,
       handle_audio_input odd_sample fresh_session =
         (set_websocket
            [ErrorMessage "audio_processing_error"
               ("Failed to process audio: " ++ str e)%string]
            (set_audio_buffer [x00] fresh_session),
          Ok tt).
Proof.
  split; [vm_compute; reflexivity|]. split; [vm_compute; reflexivity|].
  apply (handle_audio_input_detector_error fresh_session odd_sample [x00]).
  - vm_compute. reflexivity.
  - left. vm_compute. reflexivity.
Defined.


(** X16 on a new manager: a connection, its end, and a second
    connection. *)
Lemma manager_stays_ok_witness :
  manager_ok new_manager
  /\ manager_ok
       (run_calls [CallCreate []; CallRemove "session-1"; CallCreate []]
          new_manager).
Proof.
  split.
  - apply (proj1 manager_stays_ok).
  - apply (proj2 manager_stays_ok). apply (proj1 manager_stays_ok).
Defined.

(** X17 on a new manager: the first session is ["session-1"]. *)
Lemma create_session_registers_witness :
  manager_ok new_manager
  /\ get_session "session-1" (fst (create_session [] new_manager))
     = Some fresh_session
  /\ get_session_count (fst (create_session [] new_manager)) = 1.
Proof.
  pose proof (manager_ok_init (float := spec_float)) as Hok. split; [exact Hok|].
  destruct (create_session_registers [] new_manager Hok)
    as (_ & _ & Hget & Hcount & _).
  split; [exact Hget | exact Hcount].
Defined.

(** X18 on the manager that holds ["session-1"]. *)
Lemma remove_session_forgets_witness :
  is_Some (get_session "session-1"
             (fst (create_session [] new_manager)))
  /\ get_session_count
       (remove_session "session-1"
          (fst (create_session [] new_manager)))
     = get_session_count (fst (create_session [] new_manager)) - 1.
Proof.
  assert (H : is_Some (get_session "session-1"
                         (fst (create_session [] new_manager)))).
  { exists fresh_session. apply lookup_insert_eq. }
  split; [exact H|].
  destruct (remove_session_forgets "session-1"
              (fst (create_session [] new_manager)))
    as (_ & _ & _ & _ & Hcount).
  apply Hcount. exact H.
Defined.

(** X19 on a new manager. *)
Lemma create_then_remove_restores_witness :
  manager_ok new_manager
  /\ sessions
       (remove_session "session-1"
          (fst (create_session [] new_manager)))
     = sessions new_manager.
Proof.
  pose proof (manager_ok_init (float := spec_float)) as Hok. split; [exact Hok|].
  exact (proj1 (create_then_remove_restores [] new_manager Hok)).
Defined.

(** X20 on a loud frame and [huge_pad]. *)
Lemma process_frame_raises_iff_witness :
  is_ok (snd (process_frame (Int16Array [16384]) huge_pad)) = false
  /\ snd (process_frame (Int16Array [16384]) huge_pad)
     = Raise (OverflowError "integer division result too large for a float")
  /\ speech_frames (fst (process_frame (Int16Array [16384]) huge_pad))
     + silence_frames (fst (process_frame (Int16Array [16384]) huge_pad))
     = speech_frames huge_pad + silence_frames huge_pad + 1.
Proof.
  assert (H : is_ok (snd (process_frame (Int16Array [16384]) huge_pad))
              = false) by (vm_compute; reflexivity).
  split; [exact H|].
  destruct (proj2 (process_frame_raises_iff (Int16Array [16384]) huge_pad) H)
    as ([[H0 _]|[_ Hexn]] & _ & Hcount).
  - vm_compute in H0. discriminate H0.
  - split; [exact Hexn | exact Hcount].
Defined.

(** X21 on a new detector and one loud frame. *)
Lemma counters_stay_in_bounds_witness :
  counters_ok 10 23 (VoiceActivityDetector_init VADConfig_default)
  /\ counters_ok 10 23
       (fst (process_frames [Int16Array [16384]]
               (VoiceActivityDetector_init VADConfig_default))).
Proof.
  destruct (counters_stay_in_bounds [Int16Array [16384]]
              (VoiceActivityDetector_init VADConfig_default)
              (fst (process_frames [Int16Array [16384]]
                      (VoiceActivityDetector_init VADConfig_default)))
              (snd (process_frames [Int16Array [16384]]
                      (VoiceActivityDetector_init VADConfig_default)))
              10 23) as (Hinit & _ & Hstep).
  - reflexivity.
  - reflexivity.
  - lia.
  - lia.
  - split; [exact Hinit|]. apply Hstep; [exact Hinit|].
    by destruct (process_frames _ _).
Defined.

(** X22 on a new detector: ten loud frames, then 23 frames of silence. *)
Lemma utterance_starts_and_ends_witness :
  speech_pad_frames VADConfig_default = Ok 10
  /\ config_silence_frames VADConfig_default = Ok 23
  /\ exists v',
       process_frames
         (replicate 10 (Int16Array [16384]) ++ replicate 23 (Int16Array [0]))
         (VoiceActivityDetector_init VADConfig_default)
       = (v', Ok [speech_start; speech_end])
       /\ state v' = Silence
       /\ speech_frames v' = 0.
Proof.
  split; [reflexivity|]. split; [reflexivity|].
  apply (utterance_starts_and_ends
           (VoiceActivityDetector_init VADConfig_default) 10 23).
  - reflexivity.
  - reflexivity.
  - reflexivity.
  - reflexivity.
  - lia.
  - lia.
  - repeat (constructor; [vm_compute; reflexivity|]). constructor.
  - repeat (constructor; [vm_compute; reflexivity|]). constructor.
  - reflexivity.
  - reflexivity.
Defined.

End OnReference.
